(** * AI Story Generator (app.py): a shallow embedding and its properties

    The program is one Streamlit script.  Each run of the script reads the
    widget state of the browser session, renders a page element by element,
    and -- when the generate button was pressed -- formats a chat prompt,
    sends it to the generation service, parses the reply into a
    [StoryOutput], shows it and renders it to a PDF offered for download.

    The embedding follows the script top to bottom:
    - Python values, exceptions and a state-and-exception monad [M] over a
      [world] that holds the rendered page, the calls of the model and
      what the client sent for them, the file system and the names the
      tempfile module draws;
    - the f-string prompt template, kept as the text of the source and
      scanned for its replacement fields;
    - reportlab's canvas and text object, as the lines they draw and the
      glyphs of each line;
    - the script itself, [main]. *)

From Stdlib Require Import ZArith String Ascii List Lia.
From Stdlib Require Import Numbers.DecimalString.
From stdpp Require Import base option gmap strings list fin_maps.

Import ListNotations.
Open Scope string_scope.
Open Scope Z_scope.

(** ** Python values and exceptions *)

Module Py.

(** The values the script puts in the dict it hands to the chain. *)
Inductive value : Type :=
| Str (s : string)
| Int (z : Z)
| Bool (b : bool).

(** [str(v)], as [str.format] applies it to a replacement field. *)
Definition str (v : value) : string :=
  match v with
  | Str s => s
  | Int z => NilEmpty.string_of_int (Z.to_int z)
  | Bool true => "True"
  | Bool false => "False"
  end.

(** Truth value of a string: [not s] holds exactly for the empty string. *)
Definition truthy (s : string) : bool :=
  match s with
  | EmptyString => false
  | String _ _ => true
  end.

(** [s.split(sep)] for a one-character separator: the pieces between the
    separators, in order; k separators give k+1 pieces. *)
Fixpoint split (sep : ascii) (s : string) : list string :=
  match s with
  | EmptyString => [EmptyString]
  | String c rest =>
      if Ascii.eqb c sep then EmptyString :: split sep rest
      else match split sep rest with
           | [] => [String c EmptyString]
           | piece :: pieces => String c piece :: pieces
           end
  end.

(** The exceptions that can travel through the handler of the button. *)
Inductive exn : Type :=
| KeyError (key : string)
| ValueError (msg : string)
| OutputParserException
| APIError (detail : string)
| FileExistsError (msg : string)
| FileNotFoundError (path : string).

End Py.

(** ** Results *)

(** A call returns a value or raises. *)
Inductive result (A : Type) : Type :=
| Ok (a : A)
| Raise (e : Py.exn).
Arguments Ok {A} a.
Arguments Raise {A} e.

(** ** Documents, page elements and messages *)

(** What reportlab puts on the page for one character of a text.  The
    standard fonts are Type-1 fonts with a one-byte encoding: a character
    the encoding of the font has is drawn as itself; for any other
    character reportlab tries the Symbol and ZapfDingbats fonts and, when
    they lack it too, draws the not-defined glyph of ZapfDingbats, a
    black square.  The encoding tables are reportlab's and are not in the
    repository; what is used of them here is that every font has the
    printable ASCII characters and that no table has the newline
    character or a Devanagari or Gujarati letter.  A character of which
    neither is known is kept as [ByTable]. *)
Inductive glyph : Type :=
| InFont (c : ascii)
| NotDef
| ByTable (code : N).

(** One line drawn by [textLine], with the font in force when it was
    drawn and a glyph per character of the text. *)
Record text_line : Type := TextLine {
  line_font : string;
  line_size : Z;
  line_glyphs : list glyph
}.

(** A page is the text drawn on it, in drawing order. *)
Definition page : Type := list text_line.

(** Page sizes in millimetres; [A4] is reportlab's [(210*mm, 297*mm)]. *)
Definition pagesize : Type := (Z * Z)%type.
Definition A4 : pagesize := (210, 297).

Record pdf : Type := Pdf {
  pdf_pagesize : pagesize;
  pdf_pages : list page
}.

(** What a path of the file system holds: the empty file that
    [NamedTemporaryFile] creates, or a saved document. *)
Inductive file : Type :=
| EmptyFile
| PdfFile (doc : pdf).

(** What a Streamlit call puts on the page. *)

Inductive element : Type :=
| PageConfig (page_title layout : string)
| Title (body : string)
| TextInput (label : string)
| Selectbox (label : string) (options : list string)
| NumberInput (label : string) (min_value max_value step : Z)
| Checkbox (label : string) (value : bool)
| Button (label : string)
| Warning (body : string)
| Spinner (text : string)          (* on the page while its block runs *)
| Subheader (body : string)
| StWrite (body : string)
| DownloadButton (label : string) (data : file) (file_name mime : string)
| Error (body : string)
| Exception (e : Py.exn).

(** A chat message: its role and its text. *)
Record message : Type := Message {
  role : string;
  content : string
}.

(** ** The world a run acts on, and the monad of the script *)

Record world : Type := World {
  rendered : list element;                    (* what was rendered, in order *)
  invocations : list (gmap string Py.value);  (* dicts the chain was invoked with *)
  requests : list (list message);             (* prompts the model was called with *)
  files : gmap string file;                   (* the file system *)
  temp_names : list string;                   (* random names tempfile draws next *)
  sent : list (list message);                 (* what the client sent to the service *)
  resend_plan : list nat                      (* re-sends of the coming calls *)
}.

Definition add_rendered (es : list element) (w : world) : world :=
  World (rendered w ++ es)%list (invocations w) (requests w) (files w) (temp_names w)
    (sent w) (resend_plan w).

Definition add_invocation (input : gmap string Py.value) (w : world) : world :=
  World (rendered w) (invocations w ++ [input])%list (requests w) (files w) (temp_names w)
    (sent w) (resend_plan w).

Definition add_request (msgs : list message) (w : world) : world :=
  World (rendered w) (invocations w) (requests w ++ [msgs])%list (files w) (temp_names w)
    (sent w) (resend_plan w).

Definition set_files (fs : gmap string file) (names : list string) (w : world) : world :=
  World (rendered w) (invocations w) (requests w) fs names (sent w) (resend_plan w).

(** One call of the model, as the client carries it out.  [ChatOpenAI] is
    built without [max_retries], so the retry setting of the library
    applies: a request that fails in a way the client retries is sent
    again before the call returns or raises.  How often that happens for
    the coming call is the head of [resend_plan] (not at all when the
    plan is empty); every send carries the same messages. *)
Definition add_sends (msgs : list message) (w : world) : world :=
  World (rendered w) (invocations w) (requests w) (files w) (temp_names w)
    (sent w ++ repeat msgs (S (hd 0%nat (resend_plan w))))%list (tl (resend_plan w)).

(** The world after one call of the model with [msgs]. *)
Definition called (msgs : list message) (w : world) : world :=
  add_sends msgs (add_request msgs w).

Definition M (A : Type) : Type := world -> result A * world.

Definition ret {A} (a : A) : M A := fun w => (Ok a, w).

Definition raise {A} (e : Py.exn) : M A := fun w => (Raise e, w).

Definition bind {A B} (m : M A) (k : A -> M B) : M B :=
  fun w =>
    match m w with
    | (Ok a, w') => k a w'
    | (Raise e, w') => (Raise e, w')
    end.

(** [try: body except Exception as e: handler(e)]: what the body did to
    the world before it raised stays done. *)
Definition try_except {A} (body : M A) (handler : Py.exn -> M A) : M A :=
  fun w =>
    match body w with
    | (Ok a, w') => (Ok a, w')
    | (Raise e, w') => handler e w'
    end.

Declare Scope py_scope.
Delimit Scope py_scope with py.
Notation "x <- m ;; k" := (bind m (fun x => k))
  (at level 100, m at next level, right associativity) : py_scope.
Notation "m ;;; k" := (bind m (fun _ => k))
  (at level 100, right associativity) : py_scope.
Open Scope py_scope.

(** Append one element to the page. *)
Definition render (e : element) : M unit :=
  fun w => (Ok tt, add_rendered [e] w).

(** Note that the chain is entered with the dict [input]. *)
Definition invoked (input : gmap string Py.value) : M unit :=
  fun w => (Ok tt, add_invocation input w).

(** Run a computation that only fails or returns. *)
Definition lift {A} (r : result A) : M A := fun w => (r, w).

(** ** The prompt template *)

Module Template.

(** A format string is literal text interleaved with replacement fields. *)
Inductive piece : Type :=
| Lit (text : string)
| Field (name : string).

Definition lbrace : ascii := "{"%char.
Definition rbrace : ascii := "}"%char.

Definition snoc (s : string) (c : ascii) : string := s ++ String c EmptyString.

(** The scanner of [str.format]: [{name}] is a field, [{{] and [}}] are
    escaped braces, a lone [}] or an unclosed [{] is malformed.  [cur]
    is the literal (or, inside braces, the field name) read so far. *)
Fixpoint scan (s : string) (in_field : bool) (cur : string) : option (list piece) :=
  match s with
  | EmptyString => if in_field then None else Some [Lit cur]
  | String c rest =>
      if in_field then
        if Ascii.eqb c rbrace then option_map (cons (Field cur)) (scan rest false EmptyString)
        else if Ascii.eqb c lbrace then None
        else scan rest true (snoc cur c)
      else if Ascii.eqb c lbrace then
        match rest with
        | String c' rest' =>
            if Ascii.eqb c' lbrace then scan rest' false (snoc cur lbrace)
            else option_map (cons (Lit cur)) (scan rest true EmptyString)
        | EmptyString => None
        end
      else if Ascii.eqb c rbrace then
        match rest with
        | String c' rest' =>
            if Ascii.eqb c' rbrace then scan rest' false (snoc cur rbrace) else None
        | EmptyString => None
        end
      else scan rest false (snoc cur c)
  end.

Definition parse (template : string) : option (list piece) :=
  scan template false EmptyString.

(** Substitute the fields from [kwargs]; a field that is not a key
    raises [KeyError]. *)
Fixpoint fill (ps : list piece) (kwargs : gmap string Py.value) : result string :=
  match ps with
  | [] => Ok EmptyString
  | Lit text :: ps' =>
      match fill ps' kwargs with
      | Ok tail => Ok (text ++ tail)
      | Raise e => Raise e
      end
  | Field name :: ps' =>
      match kwargs !! name with
      | None => Raise (Py.KeyError name)
      | Some v =>
          match fill ps' kwargs with
          | Ok tail => Ok (Py.str v ++ tail)
          | Raise e => Raise e
          end
      end
  end.

Definition format (template : string) (kwargs : gmap string Py.value) : result string :=
  match parse template with
  | None => Raise (Py.ValueError "malformed format string")
  | Some ps => fill ps kwargs
  end.

(** The names of the replacement fields, in order of appearance. *)
Fixpoint fields (ps : list piece) : list string :=
  match ps with
  | [] => []
  | Lit _ :: ps' => fields ps'
  | Field name :: ps' => name :: fields ps'
  end.

End Template.

(** [ChatPromptTemplate]: role-tagged templates plus the variables bound
    by [.partial(...)]. *)
Record chat_prompt : Type := ChatPrompt {
  prompt_messages : list (string * string);
  partial_variables : gmap string Py.value
}.

(** [format_messages]: the partial variables are merged under the caller's
    ([{**partial, **kwargs}]), then every template is formatted. *)
Fixpoint format_each (ts : list (string * string)) (kwargs : gmap string Py.value)
  : result (list message) :=
  match ts with
  | [] => Ok []
  | (r, t) :: ts' =>
      match Template.format t kwargs with
      | Raise e => Raise e
      | Ok text =>
          match format_each ts' kwargs with
          | Raise e => Raise e
          | Ok ms => Ok (Message r text :: ms)
          end
      end
  end.

Definition format_messages (p : chat_prompt) (kwargs : gmap string Py.value)
  : result (list message) :=
  format_each (prompt_messages p) (kwargs ∪ partial_variables p).

Definition nl : string := String "010" EmptyString.

(** The system text: four adjacent literals of the source, as Python
    joins them (there is no space between the first two, nor between the
    second and the third). *)
Definition system_template : string :=
  "You are a creative, professional and award winning author who writes engaging, exciting, suspense-full"
  ++ "and emotionally rich short stories with strong character arcs and a satisfying ending according to the reader's age."
  ++ "You MUST return ONLY valid JSON. "
  ++ "Do NOT include explanations, markdown, or extra text.".

(** The human text, line by line as in the triple-quoted literal. *)
Definition human_template : string :=
  String.concat nl
    [ "";
      "        Write a 400 words story based on the following details:";
      "";
      "        Theme / Topic: {topic}";
      "        Reader Age: {age}";
      "        Genre: {genre}";
      "        Character: {name}";
      "";
      "        {format_instructions}";
      "";
      "        Age Guidelines:";
      "        - Age 3–6: Very simple words, cheerful tone, short sentences";
      "        - Age 7–12: Simple plot, light adventure, positive moral";
      "        - Age 13–17: Deeper emotions, character growth, mild conflict";
      "        - Age 18+: Mature themes, nuanced characters, richer language";
      "";
      "        Ensure the content is fully appropriate for the given age.";
      "        " ].

(** ** Output schema *)

Record StoryOutput : Type := MkStoryOutput {
  Topic : string;
  Story : string;
  Moral : string
}.

(** ** tempfile *)

Definition gettempdir : string := "/tmp".

Definition temp_path (random suffix : string) : string :=
  gettempdir ++ "/tmp" ++ random ++ suffix.

(** The first drawn name whose path does not exist yet, and the names
    left; [None] when every drawn name is taken. *)
Fixpoint draw_name (suffix : string) (names : list string) (fs : gmap string file)
  : option (string * list string) :=
  match names with
  | [] => None
  | random :: names' =>
      let path := temp_path random suffix in
      match fs !! path with
      | None => Some (path, names')
      | Some _ => draw_name suffix names' fs
      end
  end.

(** [tempfile.NamedTemporaryFile(delete=False, suffix=...)]: creates an
    empty file under a name not in use and gives its path (the [.name] of
    the object); raises [FileExistsError] when no usable name is found. *)
Definition NamedTemporaryFile (suffix : string) : M string :=
  fun w =>
    match draw_name suffix (temp_names w) (files w) with
    | Some (path, names') =>
        (Ok path, set_files (<[path := EmptyFile]> (files w)) names' w)
    | None =>
        (Raise (Py.FileExistsError "No usable temporary file name found"),
         set_files (files w) [] w)
    end.

(** [open(path, "rb")] and reading it whole. *)
Definition open_rb (path : string) : M file :=
  fun w =>
    match files w !! path with
    | Some f => (Ok f, w)
    | None => (Raise (Py.FileNotFoundError path), w)
    end.

(** ** reportlab: text objects and the canvas *)

Record textobject : Type := TextObject {
  text_origin : Z * Z;
  text_font : string * Z;
  text_code : list text_line
}.

Definition setFont (t : textobject) (name : string) (size : Z) : textobject :=
  TextObject (text_origin t) (name, size) (text_code t).

(** The characters of a text.  A Python [str] is a sequence of code
    points; the strings here are their UTF-8 bytes.  A byte that does not
    belong to a well-formed sequence gives U+FFFD. *)
Definition continuation (c : ascii) : option N :=
  let n := N_of_ascii c in
  if (128 <=? n)%N && (n <? 192)%N then Some (n - 128)%N else None.

Definition replacement_character : N := 65533%N.

Fixpoint code_points (s : string) : list N :=
  match s with
  | EmptyString => []
  | String b rest =>
      let n := N_of_ascii b in
      if (n <? 128)%N then n :: code_points rest
      else if (192 <=? n)%N && (n <? 224)%N then
        match rest with
        | String c1 rest1 =>
            match continuation c1 with
            | Some x1 => ((n - 192) * 64 + x1)%N :: code_points rest1
            | None => replacement_character :: code_points rest
            end
        | EmptyString => [replacement_character]
        end
      else if (224 <=? n)%N && (n <? 240)%N then
        match rest with
        | String c1 (String c2 rest2) =>
            match continuation c1, continuation c2 with
            | Some x1, Some x2 =>
                ((n - 224) * 4096 + x1 * 64 + x2)%N :: code_points rest2
            | _, _ => replacement_character :: code_points rest
            end
        | _ => replacement_character :: code_points rest
        end
      else if (240 <=? n)%N && (n <? 248)%N then
        match rest with
        | String c1 (String c2 (String c3 rest3)) =>
            match continuation c1, continuation c2, continuation c3 with
            | Some x1, Some x2, Some x3 =>
                ((n - 240) * 262144 + x1 * 4096 + x2 * 64 + x3)%N :: code_points rest3
            | _, _, _ => replacement_character :: code_points rest
            end
        | _ => replacement_character :: code_points rest
        end
      else replacement_character :: code_points rest
  end.

(** The Devanagari block is U+0900 to U+097F, the Gujarati block U+0A80
    to U+0AFF. *)
Definition devanagari_or_gujarati (code : N) : bool :=
  ((2304 <=? code)%N && (code <=? 2431)%N) || ((2688 <=? code)%N && (code <=? 2815)%N).

Definition glyph_of (code : N) : glyph :=
  if (32 <=? code)%N && (code <=? 126)%N then InFont (ascii_of_N code)
  else if (code =? 10)%N then NotDef
  else if devanagari_or_gujarati code then NotDef
  else ByTable code.

(** The glyphs a standard font draws for a text. *)
Definition drawn (text : string) : list glyph := map glyph_of (code_points text).

(** [textLine] draws its argument as ONE line in the current font and
    moves to the next line; it neither wraps nor splits the text. *)
Definition textLine (t : textobject) (text : string) : textobject :=
  TextObject (text_origin t) (text_font t)
    (text_code t ++ [TextLine (fst (text_font t)) (snd (text_font t)) (drawn text)])%list.

Record canvas : Type := Canvas {
  canvas_filename : string;
  canvas_pagesize : pagesize;
  canvas_current : page;
  canvas_pages : list page
}.

(** [canvas.Canvas(filename, pagesize=...)]: no page yet, nothing drawn. *)
Definition new_canvas (filename : string) (size : pagesize) : canvas :=
  Canvas filename size [] [].

(** [c.beginText(x, y)]: an empty text object in the initial font. *)
Definition beginText (c : canvas) (x y : Z) : textobject :=
  TextObject (x, y) ("Helvetica", 12) [].

Definition drawText (c : canvas) (t : textobject) : canvas :=
  Canvas (canvas_filename c) (canvas_pagesize c)
    (canvas_current c ++ text_code t)%list (canvas_pages c).

Definition showPage (c : canvas) : canvas :=
  Canvas (canvas_filename c) (canvas_pagesize c) [] (canvas_pages c ++ [canvas_current c])%list.

(** [save] closes a page still open and writes the document to the
    canvas's file name. *)
Definition save (c : canvas) : M unit :=
  fun w =>
    let pages :=
      match canvas_current c with
      | [] => canvas_pages c
      | _ :: _ => (canvas_pages c ++ [canvas_current c])%list
      end in
    (Ok tt,
     set_files (<[canvas_filename c := PdfFile (Pdf (canvas_pagesize c) pages)]> (files w))
       (temp_names w) w).

(** ** PDF generator *)

Definition generate_pdf (result : StoryOutput) : M string :=
  temp_file <- NamedTemporaryFile ".pdf";;
  let c := new_canvas temp_file A4 in
  let text := beginText c 40 800 in

  let text := setFont text "Helvetica-Bold" 14 in
  let text := textLine text (Topic result) in
  let text := textLine text "" in

  let text := setFont text "Helvetica" 11 in
  let text := fold_left textLine (Py.split "010" (Story result)) text in

  let text := textLine text (nl ++ "Moral:") in
  let text := textLine text (Moral result) in

  let c := drawText c text in
  let c := showPage c in
  save c;;;
  ret temp_file.

(** ** Streamlit widgets *)

(** What the user has entered in the browser when the script runs. *)
Record session : Type := Session {
  topic_box : string;
  genre_choice : string;
  language_choice : string;
  age_box : Z;
  name_box : string;
  parent_safe_box : bool;
  generate_clicked : bool
}.

Definition genres : list string :=
  ["Adventure"; "Educational"; "Fairy Tale"; "Fantasy"; "Fiction"; "Motivational"; "Mystery"; "Sci-Fi"].

Definition languages : list string := ["English"; "Hindi"; "Gujarati"].

Module st.

Definition set_page_config (page_title layout : string) : M unit :=
  render (PageConfig page_title layout).
Definition title (body : string) : M unit := render (Title body).
Definition text_input (label : string) (entered : string) : M string :=
  render (TextInput label);;; ret entered.
Definition selectbox (label : string) (options : list string) (chosen : string) : M string :=
  render (Selectbox label options);;; ret chosen.
Definition number_input (label : string) (min_value max_value step : Z) (entered : Z) : M Z :=
  render (NumberInput label min_value max_value step);;; ret entered.
Definition checkbox (label : string) (value : bool) (ticked : bool) : M bool :=
  render (Checkbox label value);;; ret ticked.
Definition button (label : string) (clicked : bool) : M bool :=
  render (Button label);;; ret clicked.
Definition warning (body : string) : M unit := render (Warning body).
Definition spinner (text : string) : M unit := render (Spinner text).
Definition subheader (body : string) : M unit := render (Subheader body).
Definition write (body : string) : M unit := render (StWrite body).
Definition download_button (label : string) (data : file) (file_name mime : string) : M unit :=
  render (DownloadButton label data file_name mime).
Definition error (body : string) : M unit := render (Error body).
Definition exception (e : Py.exn) : M unit := render (Exception e).

End st.

(** What the generation service does with a request. *)
Inductive outcome : Type :=
| Reply (text : string)
| Failure (detail : string).

(** ** Vocabulary of the statements *)

(** [sub] occurs in [s]. *)
Definition occurs_in (sub s : string) : Prop :=
  exists before after, s = before ++ sub ++ after.

(** The same as a test. *)
Fixpoint occursb (sub s : string) : bool :=
  String.prefix sub s
  || match s with
     | EmptyString => false
     | String _ s' => occursb sub s'
     end.

(** The age table of the human template, line by line. *)
Definition age_guidelines : list string :=
  [ "- Age 3–6: Very simple words, cheerful tone, short sentences";
    "- Age 7–12: Simple plot, light adventure, positive moral";
    "- Age 13–17: Deeper emotions, character growth, mild conflict";
    "- Age 18+: Mature themes, nuanced characters, richer language" ].

(** The table as it stands in the template: the heading and the four
    lines, each indented by eight spaces. *)
Definition age_table : string :=
  String.concat nl
    (map (fun line => "        " ++ line) ("Age Guidelines:" :: age_guidelines)).

(** The widgets every run renders before it looks at the button; the
    check box is rendered only up to age 18. *)
Definition form (s : session) : list element :=
  ([ PageConfig "AI Story Generator" "centered";
     Title "📖 AI Story Generator";
     TextInput "Enter a topic, theme, or idea for the story";
     Selectbox "Select a genre" genres;
     Selectbox "Select story language" languages;
     NumberInput "Reader's age" 3 100 1;
     TextInput "Main character's name" ]
   ++ (if age_box s >? 18 then [] else [Checkbox "🧒 Parent-safe content mode" true])
   ++ [ Button "✨ Generate Story" ])%list.

(** The value of [parent_safe] after line 109. *)
Definition effective_parent_safe (s : session) : bool :=
  if age_box s >? 18 then false else parent_safe_box s.

(** What the page shows of a result. *)
Definition shown (genre : string) (result : StoryOutput) : list element :=
  ([ Subheader "📌 Topic"; StWrite (Topic result);
     Subheader "📚 Story"; StWrite (Story result) ]
   ++ (if String.eqb genre "Motivational" || String.eqb genre "Educational"
       then [ Subheader "🌱 Moral"; StWrite (Moral result) ]
       else []))%list.

Definition is_download (e : element) : bool :=
  match e with
  | DownloadButton _ _ _ _ => true
  | _ => false
  end.

Definition is_checkbox (e : element) : bool :=
  match e with
  | Checkbox _ _ => true
  | _ => false
  end.

(** Elements that put text of the story on the page. *)
Definition is_story_text (e : element) : bool :=
  match e with
  | Subheader _ | StWrite _ => true
  | _ => false
  end.

(** A name the tempfile module can still use in [w]. *)
Definition usable_name (suffix : string) (w : world) : Prop :=
  exists random, In random (temp_names w) /\ files w !! temp_path random suffix = None.

(** A session with another language chosen, or another state of the
    parent-safe box; everything else as in [s]. *)
Definition with_language (language : string) (s : session) : session :=
  Session (topic_box s) (genre_choice s) language (age_box s) (name_box s)
    (parent_safe_box s) (generate_clicked s).

Definition with_parent_safe (ticked : bool) (s : session) : session :=
  Session (topic_box s) (genre_choice s) (language_choice s) (age_box s) (name_box s)
    ticked (generate_clicked s).

(** The lines [generate_pdf] draws for a result. *)
Definition pdf_lines (result : StoryOutput) : page :=
  (TextLine "Helvetica-Bold" 14 (drawn (Topic result))
   :: TextLine "Helvetica-Bold" 14 (drawn "")
   :: map (fun piece => TextLine "Helvetica" 11 (drawn piece))
        (Py.split "010" (Story result))
   ++ [ TextLine "Helvetica" 11 (drawn (nl ++ "Moral:"));
        TextLine "Helvetica" 11 (drawn (Moral result)) ])%list.

(** A run attempts generation when the button is pressed and neither
    required field is empty. *)
Definition attempted (s : session) : bool :=
  generate_clicked s && Py.truthy (topic_box s) && Py.truthy (name_box s).

(** How often a character occurs in a text. *)
Fixpoint count_char (c : ascii) (s : string) : nat :=
  match s with
  | EmptyString => 0%nat
  | String x rest => ((if Ascii.eqb x c then 1 else 0) + count_char c rest)%nat
  end.

(** The human template with its five fields filled in, written out. *)
Definition human_text (topic age genre name instructions : string) : string :=
  nl ++ "        Write a 400 words story based on the following details:" ++ nl
  ++ nl
  ++ "        Theme / Topic: " ++ topic ++ nl
  ++ "        Reader Age: " ++ age ++ nl
  ++ "        Genre: " ++ genre ++ nl
  ++ "        Character: " ++ name ++ nl
  ++ nl
  ++ "        " ++ instructions ++ nl
  ++ nl
  ++ "        Age Guidelines:" ++ nl
  ++ "        - Age 3–6: Very simple words, cheerful tone, short sentences" ++ nl
  ++ "        - Age 7–12: Simple plot, light adventure, positive moral" ++ nl
  ++ "        - Age 13–17: Deeper emotions, character growth, mild conflict" ++ nl
  ++ "        - Age 18+: Mature themes, nuanced characters, richer language" ++ nl
  ++ nl
  ++ "        Ensure the content is fully appropriate for the given age." ++ nl
  ++ "        ".

(** ** What is used of the output parser *)

(** The double quote. *)
Definition dq : string := String "034" EmptyString.

(** The JSON text of an output whose three values need no escaping, as
    [json.dumps] writes it. *)
Definition open_topic : string := "{" ++ dq ++ "Topic" ++ dq ++ ": " ++ dq.
Definition open_story : string := ", " ++ dq ++ "Story" ++ dq ++ ": " ++ dq.
Definition open_moral : string := ", " ++ dq ++ "Moral" ++ dq ++ ": " ++ dq.

Definition json_object (topic story moral : string) : string :=
  open_topic ++ topic ++ dq ++ open_story ++ story ++ dq ++ open_moral ++ moral ++ dq ++ "}".

(** Printable ASCII without the characters that mean something to a JSON
    reader or to the parser's clean-up of the reply: the double quote,
    the backslash, braces, brackets and the backtick. *)
Definition plain_char (c : ascii) : bool :=
  let n := N_of_ascii c in
  (32 <=? n)%N && (n <=? 126)%N
  && negb (n =? 34)%N && negb (n =? 92)%N
  && negb (n =? 123)%N && negb (n =? 125)%N
  && negb (n =? 91)%N && negb (n =? 93)%N
  && negb (n =? 96)%N.

Fixpoint plain (s : string) : bool :=
  match s with
  | EmptyString => true
  | String c rest => plain_char c && plain rest
  end.



(** Texts of printable ASCII characters only. *)
Fixpoint printable (s : string) : bool :=
  match s with
  | EmptyString => true
  | String c rest =>
      (32 <=? N_of_ascii c)%N && (N_of_ascii c <=? 126)%N && printable rest
  end.

(** ** Sample data for the worked examples *)

Module Sample.

Definition fox : StoryOutput :=
  MkStoryOutput "The Brave Fox" ("Mia met a fox." ++ nl ++ "They became friends.")
    "Courage grows when shared.".

(** A reply of the service: the JSON object of the fox story, the line
    break of the story written as the escape [\n]. *)
Definition conforming : string :=
  json_object "The Brave Fox" "Mia met a fox.\nThey became friends."
    "Courage grows when shared.".

(** A service that answers every request with the same text. *)
Definition always (text : string) (msgs : list message) : outcome := Reply text.
Definition down (msgs : list message) : outcome := Failure "Connection error.".

(** A decoder that knows one reply, [conforming], and rejects every
    other text. *)
Definition decode (text : string) : option StoryOutput :=
  if String.eqb text conforming then Some fox else None.

Definition instructions : string := "Return a JSON object with Topic, Story and Moral.".

Definition scenario : session :=
  Session "a brave fox" "Adventure" "English" 8 "Mia" true true.

Definition adult : session :=
  Session "a brave fox" "Motivational" "Hindi" 30 "Mia" true true.

Definition nameless : session :=
  Session "a brave fox" "Adventure" "English" 8 "" true true.

Definition fresh_world : world := World [] [] [] ∅ ["k3x9"] [] [].
Definition no_names_world : world := World [] [] [] ∅ [] [] [].
Definition two_names_world : world := World [] [] [] ∅ ["k3x9"; "p7q2"] [] [].

Definition stocked_world : world :=
  World [] [] [] {[ "/tmp/notes.txt" := EmptyFile ]} ["k3x9"] [] [].

(** A dict that binds topic, age and genre but not the name. *)
Definition nameless_input : gmap string Py.value :=
  <["topic" := Py.Str "a brave fox"]>
    (<["age" := Py.Int 8]> (<["genre" := Py.Str "Adventure"]> ∅)).

Definition owl : StoryOutput :=
  MkStoryOutput "The Patient Owl" "An owl waited." "Patience pays.".

(** A parser for the replies of [accepts_trailing_prose]: it reads the
    object of [json_object] and accepts it with whatever plain text
    follows; it rejects everything else. *)
Fixpoint strip_prefix (prefix s : string) : option string :=
  match prefix with
  | EmptyString => Some s
  | String a prefix' =>
      match s with
      | String b s' => if Ascii.eqb a b then strip_prefix prefix' s' else None
      | EmptyString => None
      end
  end.

Fixpoint read_to_quote (s : string) : option (string * string) :=
  match s with
  | EmptyString => None
  | String c rest =>
      if Ascii.eqb c "034"%char then Some (EmptyString, rest)
      else match read_to_quote rest with
           | Some (value, rest') => Some (String c value, rest')
           | None => None
           end
  end.

Definition lenient (text : string) : option StoryOutput :=
  match strip_prefix open_topic text with
  | None => None
  | Some r0 =>
      match read_to_quote r0 with
      | None => None
      | Some (topic, r1) =>
          match strip_prefix open_story r1 with
          | None => None
          | Some r2 =>
              match read_to_quote r2 with
              | None => None
              | Some (story, r3) =>
                  match strip_prefix open_moral r3 with
                  | None => None
                  | Some r4 =>
                      match read_to_quote r4 with
                      | None => None
                      | Some (moral, r5) =>
                          match strip_prefix "}" r5 with
                          | None => None
                          | Some trailing =>
                              if plain topic && plain story && plain moral
                                 && plain trailing
                              then Some (MkStoryOutput topic story moral)
                              else None
                          end
                      end
                  end
              end
          end
      end
  end.

Definition prose_then_owl : string :=
  "Here is your story: " ++ json_object "The Patient Owl" "An owl waited." "Patience pays.".

(** A story with a Hindi title and moral, its JSON object, and a decoder
    that knows this reply. *)
Definition hindi_fox : StoryOutput :=
  MkStoryOutput "बहादुर लोमड़ी" "Mia met a fox." "साहस बाँटने से बढ़ता है।".

Definition conforming_hindi : string :=
  json_object "बहादुर लोमड़ी" "Mia met a fox." "साहस बाँटने से बढ़ता है।".

Definition decode_hindi (text : string) : option StoryOutput :=
  if String.eqb text conforming_hindi then Some hindi_fox else None.

(** A world in which the client re-sends the next call twice. *)
Definition retrying_world : world := World [] [] [] ∅ ["k3x9"] [] [2%nat].
End Sample.

Section App.

(** The external parts: the service behind [ChatOpenAI], the decoding
    done by [PydanticOutputParser] for [StoryOutput] ([None] when the
    text does not decode into the three fields), and the text of
    [get_format_instructions()]. *)
Variable llm : list message -> outcome.
Variable parse_reply : string -> option StoryOutput.
Variable format_instructions : string.

Definition prompt : chat_prompt :=
  ChatPrompt
    [("system", system_template); ("human", human_template)]
    {[ "format_instructions" := Py.Str format_instructions ]}.

(** One call of the model: the client sends the request, as often as
    its retry setting has it, and then the call returns the reply or
    raises. *)
Definition llm_invoke (msgs : list message) : M string :=
  fun w =>
    match llm msgs with
    | Reply text => (Ok text, called msgs w)
    | Failure detail => (Raise (Py.APIError detail), called msgs w)
    end.

(** The parser returns the decoded output or raises its exception (whose
    message and [llm_output] are the library's and are not modelled). *)
Definition story_parser_parse (text : string) : M StoryOutput :=
  match parse_reply text with
  | Some out => ret out
  | None => raise Py.OutputParserException
  end.

(** [story_chain = prompt | llm | story_parser] *)
Definition story_chain_invoke (input : gmap string Py.value) : M StoryOutput :=
  invoked input;;;
  msgs <- lift (format_messages prompt input);;
  reply <- llm_invoke msgs;;
  story_parser_parse reply.

(** The dict of the [invoke] call. *)
Definition chain_input (user_topic genre language : string) (age : Z) (name : string)
    (parent_safe : bool) : gmap string Py.value :=
  <["topic" := Py.Str user_topic]>
    (<["genre" := Py.Str genre]>
      (<["language" := Py.Str language]>
        (<["age" := Py.Int age]>
          (<["name" := Py.Str name]>
            (<["parent_safe" := Py.Bool parent_safe]> ∅))))).

(** The body of the [try] block. *)
Definition generate (user_topic genre language : string) (age : Z) (name : string)
    (parent_safe : bool) : M unit :=
  result <- story_chain_invoke (chain_input user_topic genre language age name parent_safe);;
  st.subheader "📌 Topic";;;
  st.write (Topic result);;;
  st.subheader "📚 Story";;;
  st.write (Story result);;;
  (if String.eqb genre "Motivational" || String.eqb genre "Educational"
   then st.subheader "🌱 Moral";;; st.write (Moral result)
   else ret tt);;;
  pdf_path <- generate_pdf result;;
  f <- open_rb pdf_path;;
  st.download_button "📄 Download as PDF" f "story.pdf" "application/pdf".

(** The script. *)
Definition main (s : session) : M unit :=
  st.set_page_config "AI Story Generator" "centered";;;
  st.title "📖 AI Story Generator";;;
  user_topic <- st.text_input "Enter a topic, theme, or idea for the story" (topic_box s);;
  genre <- st.selectbox "Select a genre" genres (genre_choice s);;
  language <- st.selectbox "Select story language" languages (language_choice s);;
  age <- st.number_input "Reader's age" 3 100 1 (age_box s);;
  name <- st.text_input "Main character's name" (name_box s);;
  parent_safe <-
    (if age >? 18 then ret false
     else st.checkbox "🧒 Parent-safe content mode" true (parent_safe_box s));;
  clicked <- st.button "✨ Generate Story" (generate_clicked s);;
  if clicked then
    if negb (Py.truthy user_topic) || negb (Py.truthy name) then
      st.warning "Please fill all required fields."
    else
      st.spinner "Creating your story...";;;
      try_except
        (generate user_topic genre language age name parent_safe)
        (fun e => st.error "Story generation failed.";;; st.exception e)
  else ret tt.

(** The formatted prompt for the values of the widgets. *)
Definition assemble (user_topic genre language : string) (age : Z) (name : string)
    (parent_safe : bool) : result (list message) :=
  format_messages prompt (chain_input user_topic genre language age name parent_safe).

(** The dict and the prompt of a session. *)
Definition session_input (s : session) : gmap string Py.value :=
  chain_input (topic_box s) (genre_choice s) (language_choice s) (age_box s) (name_box s)
    (effective_parent_safe s).

Definition session_prompt (s : session) : result (list message) :=
  format_messages prompt (session_input s).

(** The handler of the [except] clause. *)
Definition on_exception (e : Py.exn) : M unit :=
  st.error "Story generation failed.";;; st.exception e.

(** The parsed human template, and the literal after its last field. *)
Definition human_pieces : list Template.piece :=
  Eval vm_compute in default [] (Template.parse human_template).

Definition human_tail : string :=
  nl ++ nl ++ age_table ++ nl ++ nl
  ++ "        Ensure the content is fully appropriate for the given age." ++ nl
  ++ "        ".

(** *** The library functions on small inputs *)

Example split_lines : Py.split "010" ("ab" ++ nl ++ nl ++ "c") = ["ab"; ""; "c"].
Proof. reflexivity. Qed.

Example split_empty : Py.split "010" "" = [""].
Proof. reflexivity. Qed.

Example str_int : Py.str (Py.Int 8) = "8".
Proof. reflexivity. Qed.

Example format_fields :
  Template.format "{a}-{b}{{}}" (<["a" := Py.Str "x"]> (<["b" := Py.Int 12]> ∅))
  = Ok "x-12{}".
Proof. vm_compute. reflexivity. Qed.

Example format_missing_key :
  Template.format "{a}" (∅ : gmap string Py.value) = Raise (Py.KeyError "a").
Proof. vm_compute. reflexivity. Qed.

Example parse_lone_brace : Template.parse "a}b" = None.
Proof. reflexivity. Qed.

Example draw_name_skips_taken :
  draw_name ".pdf" ["a"; "b"; "c"] {[ "/tmp/tmpa.pdf" := EmptyFile ]}
  = Some ("/tmp/tmpb.pdf", ["c"]).
Proof. vm_compute. reflexivity. Qed.

Example human_template_length : String.length human_template = 584%nat.
Proof. reflexivity. Qed.

Example system_template_length : String.length system_template = 304%nat.
Proof. reflexivity. Qed.

(** *** Formatting *)

Lemma parse_human_template : Template.parse human_template = Some human_pieces.
Proof. vm_compute. reflexivity. Qed.

Lemma parse_system_template :
  Template.parse system_template = Some [Template.Lit system_template].
Proof. vm_compute. reflexivity. Qed.

Lemma human_pieces_fields :
  Template.fields human_pieces = ["topic"; "age"; "genre"; "name"; "format_instructions"].
Proof. reflexivity. Qed.

Lemma human_pieces_tail :
  human_pieces = (removelast human_pieces ++ [Template.Lit human_tail])%list.
Proof. vm_compute. reflexivity. Qed.

Lemma age_table_in_tail : occurs_in age_table human_tail.
Proof.
  exists (nl ++ nl),
    (nl ++ nl ++ "        Ensure the content is fully appropriate for the given age."
     ++ nl ++ "        ").
  vm_compute. reflexivity.
Qed.

Lemma fill_agree (ps : list Template.piece) (k1 k2 : gmap string Py.value) :
  (forall name, In name (Template.fields ps) -> k1 !! name = k2 !! name) ->
  Template.fill ps k1 = Template.fill ps k2.
Proof.
  induction ps as [|[text|name] ps IH]; intros Hagree; cbn.
  - reflexivity.
  - rewrite IH by exact Hagree. reflexivity.
  - rewrite (Hagree name) by (left; reflexivity).
    rewrite IH by (intros n Hn; apply Hagree; right; exact Hn).
    reflexivity.
Qed.

Lemma fill_total (ps : list Template.piece) (k : gmap string Py.value) :
  (forall name, In name (Template.fields ps) -> is_Some (k !! name)) ->
  exists text, Template.fill ps k = Ok text.
Proof.
  induction ps as [|[text|name] ps IH]; intros Hkeys; cbn.
  - eexists; reflexivity.
  - destruct (IH Hkeys) as [tail ->]. eexists; reflexivity.
  - destruct (Hkeys name (or_introl eq_refl)) as [v ->].
    destruct (IH (fun n Hn => Hkeys n (or_intror Hn))) as [tail ->].
    eexists; reflexivity.
Qed.

Lemma string_cons_app (x : ascii) (a b : string) : String x a ++ b = String x (a ++ b).
Proof. reflexivity. Qed.

Lemma string_app_assoc (a b c : string) : (a ++ b) ++ c = a ++ (b ++ c).
Proof.
  induction a as [|x a IH]; [reflexivity|].
  rewrite !string_cons_app, IH. reflexivity.
Qed.

Lemma string_app_nil_r (a : string) : a ++ "" = a.
Proof.
  induction a as [|x a IH]; [reflexivity|].
  rewrite string_cons_app, IH. reflexivity.
Qed.

Lemma fill_ends_with (ps : list Template.piece) (lit : string)
    (k : gmap string Py.value) (text : string) :
  Template.fill (ps ++ [Template.Lit lit]) k = Ok text ->
  exists before, text = before ++ lit.
Proof.
  revert text. induction ps as [|[t|name] ps IH]; intros text; cbn.
  - intros [= <-]. exists "". cbn. apply string_app_nil_r.
  - destruct (Template.fill (ps ++ [Template.Lit lit]) k) as [tail|e] eqn:E; [|discriminate].
    intros [= <-]. destruct (IH tail eq_refl) as [before ->].
    exists (t ++ before). symmetry. apply string_app_assoc.
  - destruct (k !! name) as [v|]; [|discriminate].
    destruct (Template.fill (ps ++ [Template.Lit lit]) k) as [tail|e] eqn:E; [|discriminate].
    intros [= <-]. destruct (IH tail eq_refl) as [before ->].
    exists (Py.str v ++ before). symmetry. apply string_app_assoc.
Qed.

(** The merged variables of a call: the five fields of the template
    are bound, to the values of the widgets and to the instructions. *)
Lemma merged_lookup (user_topic genre language : string) (age : Z) (name : string)
    (parent_safe : bool) :
  let kwargs := chain_input user_topic genre language age name parent_safe
                ∪ partial_variables prompt in
  kwargs !! "topic" = Some (Py.Str user_topic)
  /\ kwargs !! "age" = Some (Py.Int age)
  /\ kwargs !! "genre" = Some (Py.Str genre)
  /\ kwargs !! "name" = Some (Py.Str name)
  /\ kwargs !! "format_instructions" = Some (Py.Str format_instructions).
Proof.
  repeat split; reflexivity.
Qed.

Lemma format_system (k : gmap string Py.value) :
  Template.format system_template k = Ok system_template.
Proof.
  unfold Template.format. rewrite parse_system_template.
  cbn [Template.fill]. rewrite string_app_nil_r. reflexivity.
Qed.

Lemma format_human (k : gmap string Py.value) :
  (forall name, In name (Template.fields human_pieces) -> is_Some (k !! name)) ->
  exists human, Template.format human_template k = Ok human /\ occurs_in age_table human.
Proof.
  intros Hkeys. unfold Template.format. rewrite parse_human_template.
  destruct (fill_total human_pieces k Hkeys) as [human Hfill].
  exists human. split; [exact Hfill|].
  rewrite human_pieces_tail in Hfill.
  apply fill_ends_with in Hfill as [before ->].
  destruct age_table_in_tail as (b & a & ->).
  exists (before ++ b), a. symmetry. apply string_app_assoc.
Qed.

(** Formatting the prompt for the dict of the script never fails: it
    gives the system text unchanged and a human text that carries the
    age table. *)
Lemma assemble_ok (user_topic genre language : string) (age : Z) (name : string)
    (parent_safe : bool) :
  exists human,
    assemble user_topic genre language age name parent_safe
    = Ok [Message "system" system_template; Message "human" human]
    /\ occurs_in age_table human.
Proof.
  destruct (merged_lookup user_topic genre language age name parent_safe)
    as (Ht & Ha & Hg & Hn & Hf).
  destruct (format_human
              (chain_input user_topic genre language age name parent_safe
               ∪ partial_variables prompt)) as (human & Hhuman & Hocc).
  { rewrite human_pieces_fields. intros k Hk.
    cbn [In] in Hk.
    destruct Hk as [<-|[<-|[<-|[<-|[<-|[]]]]]]; eexists; eassumption. }
  exists human. split; [|exact Hocc].
  unfold assemble, format_messages.
  change (prompt_messages prompt)
    with [("system", system_template); ("human", human_template)].
  cbn [format_each]. rewrite format_system, Hhuman. reflexivity.
Qed.

(** The prompt depends on the dict only through the fields of the
    templates. *)
Lemma format_messages_agree (k1 k2 : gmap string Py.value) :
  (forall name, In name (Template.fields human_pieces) ->
     (k1 ∪ partial_variables prompt) !! name = (k2 ∪ partial_variables prompt) !! name) ->
  format_messages prompt k1 = format_messages prompt k2.
Proof.
  intros Hagree. unfold format_messages.
  change (prompt_messages prompt)
    with [("system", system_template); ("human", human_template)].
  cbn [format_each]. rewrite !format_system.
  unfold Template.format. rewrite parse_human_template.
  rewrite (fill_agree human_pieces _ _ Hagree). reflexivity.
Qed.

(** *** The chain *)

Lemma story_chain_invoke_unfold (input : gmap string Py.value) (w : world) :
  story_chain_invoke input w =
    match format_messages prompt input with
    | Raise e => (Raise e, add_invocation input w)
    | Ok msgs =>
        match llm msgs with
        | Failure detail =>
            (Raise (Py.APIError detail), called msgs (add_invocation input w))
        | Reply text =>
            match parse_reply text with
            | None =>
                (Raise Py.OutputParserException, called msgs (add_invocation input w))
            | Some out => (Ok out, called msgs (add_invocation input w))
            end
        end
    end.
Proof.
  unfold story_chain_invoke, bind, invoked, lift, llm_invoke, story_parser_parse, ret, raise.
  destruct (format_messages prompt input) as [msgs|e]; [|reflexivity].
  destruct (llm msgs) as [text|detail]; [|reflexivity].
  destruct (parse_reply text); reflexivity.
Qed.

(** *** Splitting at newlines *)

Lemma split_nonempty (sep : ascii) (s : string) : Py.split sep s <> [].
Proof.
  destruct s as [|c s]; cbn; [discriminate|].
  destruct (Ascii.eqb c sep); [discriminate|].
  destruct (Py.split sep s); discriminate.
Qed.

Lemma concat_cons2 (sep x y : string) (l : list string) :
  String.concat sep (x :: y :: l) = x ++ sep ++ String.concat sep (y :: l).
Proof. reflexivity. Qed.

(** Joining the pieces with the separator gives the text back: the
    split loses nothing and breaks the text nowhere else. *)
Lemma split_join (sep : ascii) (s : string) :
  String.concat (String sep "") (Py.split sep s) = s.
Proof.
  induction s as [|c s IH]; [reflexivity|].
  cbn [Py.split]. pose proof (split_nonempty sep s) as Hnil.
  destruct (Py.split sep s) as [|piece pieces]; [contradiction|].
  destruct (Ascii.eqb_spec c sep) as [->|Hne].
  - rewrite concat_cons2, IH. reflexivity.
  - destruct pieces as [|piece' pieces].
    + cbn [String.concat] in *. rewrite IH. reflexivity.
    + rewrite concat_cons2 in *. rewrite string_cons_app, IH. reflexivity.
Qed.

(** No piece contains the separator. *)
Lemma split_pieces (sep : ascii) (s piece : string) :
  In piece (Py.split sep s) -> ~ occurs_in (String sep "") piece.
Proof.
  revert piece. induction s as [|c s IH]; intros piece; cbn [Py.split].
  - intros [<-|[]] (b & a & H). destruct b; discriminate.
  - destruct (Ascii.eqb_spec c sep) as [->|Hne].
    + intros [<-|Hin]; [|apply IH; exact Hin].
      intros (b & a & H). destruct b; discriminate.
    + pose proof (split_nonempty sep s) as Hnil.
      destruct (Py.split sep s) as [|first pieces] eqn:E; [contradiction|].
      intros [<-|Hin]; [|apply IH; right; exact Hin].
      intros (b & a & H). destruct b as [|x b].
      * cbn in H. injection H as Hc _. contradiction.
      * rewrite string_cons_app in H. injection H as _ H.
        apply (IH first (or_introl eq_refl)). exists b, a. exact H.
Qed.

(** *** The renderer *)

Lemma fold_textLine (lines : list string) (t : textobject) :
  fold_left textLine lines t =
    TextObject (text_origin t) (text_font t)
      (text_code t
       ++ map (fun line => TextLine (fst (text_font t)) (snd (text_font t)) (drawn line))
            lines)%list.
Proof.
  revert t. induction lines as [|line lines IH]; intros t; cbn [fold_left map].
  - rewrite app_nil_r. destruct t; reflexivity.
  - rewrite IH. cbn. rewrite <- app_assoc. reflexivity.
Qed.

(** The text object of [generate_pdf] holds the title, the empty line,
    the pieces of the story, the label and the moral. *)
Lemma story_text_code (result : StoryOutput) (c : canvas) :
  text_code
    (textLine
       (textLine
          (fold_left textLine (Py.split "010" (Story result))
             (setFont
                (textLine
                   (textLine (setFont (beginText c 40 800) "Helvetica-Bold" 14)
                      (Topic result))
                   "")
                "Helvetica" 11))
          (nl ++ "Moral:"))
       (Moral result))
  = pdf_lines result.
Proof.
  unfold pdf_lines. rewrite fold_textLine. cbn.
  rewrite <- app_assoc. reflexivity.
Qed.

Lemma draw_name_fresh (suffix : string) (names : list string) (fs : gmap string file)
    (path : string) (names' : list string) :
  draw_name suffix names fs = Some (path, names') ->
  fs !! path = None /\ exists random, In random names /\ path = temp_path random suffix.
Proof.
  induction names as [|random names IH]; cbn [draw_name]; [discriminate|].
  destruct (fs !! temp_path random suffix) eqn:E.
  - intros H. destruct (IH H) as (Hnone & r & Hin & ->).
    split; [exact Hnone|]. exists r. split; [right; exact Hin | reflexivity].
  - intros [= <- <-]. split; [exact E|].
    exists random. split; [left; reflexivity | reflexivity].
Qed.

Lemma generate_pdf_unfold (result : StoryOutput) (w : world) :
  generate_pdf result w =
    match draw_name ".pdf" (temp_names w) (files w) with
    | Some (path, names') =>
        (Ok path,
         set_files (<[path := PdfFile (Pdf A4 [pdf_lines result])]> (files w)) names' w)
    | None =>
        (Raise (Py.FileExistsError "No usable temporary file name found"),
         set_files (files w) [] w)
    end.
Proof.
  unfold generate_pdf, bind, NamedTemporaryFile.
  destruct (draw_name ".pdf" (temp_names w) (files w)) as [[path names']|]; [|reflexivity].
  cbv zeta. unfold save, ret, showPage, drawText, new_canvas.
  cbn [canvas_filename canvas_pagesize canvas_current canvas_pages app
       rendered invocations requests files temp_names set_files].
  rewrite story_text_code, insert_insert_eq. reflexivity.
Qed.

(** *** The body of the try block *)

Lemma generate_unfold (user_topic genre language : string) (age : Z) (name : string)
    (parent_safe : bool) (w : world) :
  generate user_topic genre language age name parent_safe w =
    match story_chain_invoke
            (chain_input user_topic genre language age name parent_safe) w with
    | (Raise e, w1) => (Raise e, w1)
    | (Ok result, w1) =>
        let w2 := add_rendered (shown genre result) w1 in
        match draw_name ".pdf" (temp_names w2) (files w2) with
        | None =>
            (Raise (Py.FileExistsError "No usable temporary file name found"),
             set_files (files w2) [] w2)
        | Some (path, names') =>
            let doc := PdfFile (Pdf A4 [pdf_lines result]) in
            (Ok tt,
             add_rendered
               [DownloadButton "📄 Download as PDF" doc "story.pdf" "application/pdf"]
               (set_files (<[path := doc]> (files w2)) names' w2))
        end
    end.
Proof.
  unfold generate. unfold bind at 1.
  destruct (story_chain_invoke _ w) as [[result|e] w1]; [|reflexivity].
  destruct w1 as [page inv reqs fs names out plan].
  unfold shown, st.subheader, st.write, st.download_button, bind, render, ret, add_rendered.
  cbn [rendered invocations requests files temp_names sent resend_plan].
  destruct (String.eqb genre "Motivational" || String.eqb genre "Educational");
    cbn [rendered invocations requests files temp_names sent resend_plan app];
    rewrite generate_pdf_unfold;
    cbn [rendered invocations requests files temp_names sent resend_plan app];
    rewrite <- ?app_assoc; cbn [app];
    (destruct (draw_name ".pdf" names fs) as [[path names']|]; [|reflexivity]);
    unfold open_rb, set_files;
    cbn [rendered invocations requests files temp_names sent resend_plan];
    rewrite lookup_insert_eq;
    cbn [rendered invocations requests files temp_names sent resend_plan];
    rewrite <- ?app_assoc; reflexivity.
Qed.

(** *** The script, phase by phase *)

Lemma add_rendered_add (es1 es2 : list element) (w : world) :
  add_rendered es2 (add_rendered es1 w) = add_rendered (es1 ++ es2) w.
Proof. unfold add_rendered. cbn. rewrite app_assoc. reflexivity. Qed.

Lemma main_unfold (s : session) (w : world) :
  main s w =
    let w1 := add_rendered (form s) w in
    if generate_clicked s then
      if negb (Py.truthy (topic_box s)) || negb (Py.truthy (name_box s)) then
        (Ok tt, add_rendered [Warning "Please fill all required fields."] w1)
      else
        try_except
          (generate (topic_box s) (genre_choice s) (language_choice s) (age_box s)
             (name_box s) (effective_parent_safe s))
          on_exception
          (add_rendered [Spinner "Creating your story..."] w1)
    else (Ok tt, w1).
Proof.
  unfold main, form, effective_parent_safe, on_exception.
  unfold st.set_page_config, st.title, st.text_input, st.selectbox, st.number_input,
    st.checkbox, st.button, st.warning, st.spinner, st.error, st.exception,
    bind, render, ret.
  destruct (age_box s >? 18); destruct (generate_clicked s);
    try destruct (negb (Py.truthy (topic_box s)) || negb (Py.truthy (name_box s)));
    cbv beta iota zeta; rewrite !add_rendered_add; cbn [app].
  all: reflexivity.
Qed.

Lemma on_exception_unfold (e : Py.exn) (w : world) :
  on_exception e w
  = (Ok tt, add_rendered [Error "Story generation failed."; Exception e] w).
Proof.
  destruct w. unfold on_exception, st.error, st.exception, bind, render, add_rendered.
  cbn. rewrite <- app_assoc. reflexivity.
Qed.

(** Every way a run can go, from the button to the last element. *)
Lemma main_cases (s : session) (w : world) :
  main s w =
    let w1 := add_rendered (form s) w in
    if generate_clicked s then
      if negb (Py.truthy (topic_box s)) || negb (Py.truthy (name_box s)) then
        (Ok tt, add_rendered [Warning "Please fill all required fields."] w1)
      else
        let w2 := add_invocation (session_input s)
                    (add_rendered [Spinner "Creating your story..."] w1) in
        match session_prompt s with
        | Raise e =>
            (Ok tt, add_rendered [Error "Story generation failed."; Exception e] w2)
        | Ok msgs =>
            let w3 := called msgs w2 in
            match llm msgs with
            | Failure detail =>
                (Ok tt,
                 add_rendered
                   [Error "Story generation failed."; Exception (Py.APIError detail)] w3)
            | Reply text =>
                match parse_reply text with
                | None =>
                    (Ok tt,
                     add_rendered
                       [Error "Story generation failed.";
                        Exception Py.OutputParserException] w3)
                | Some result =>
                    let w4 := add_rendered (shown (genre_choice s) result) w3 in
                    match draw_name ".pdf" (temp_names w) (files w) with
                    | None =>
                        (Ok tt,
                         add_rendered
                           [Error "Story generation failed.";
                            Exception
                              (Py.FileExistsError "No usable temporary file name found")]
                           (set_files (files w) [] w4))
                    | Some (path, names') =>
                        let doc := PdfFile (Pdf A4 [pdf_lines result]) in
                        (Ok tt,
                         add_rendered
                           [DownloadButton "📄 Download as PDF" doc "story.pdf"
                              "application/pdf"]
                           (set_files (<[path := doc]> (files w)) names' w4))
                    end
                end
            end
        end
    else (Ok tt, w1).
Proof.
  rewrite main_unfold. cbv zeta.
  destruct (generate_clicked s); [|reflexivity].
  destruct (negb (Py.truthy (topic_box s)) || negb (Py.truthy (name_box s)));
    [reflexivity|].
  unfold try_except. rewrite generate_unfold, story_chain_invoke_unfold.
  fold (session_input s). fold (session_prompt s).
  destruct (session_prompt s) as [msgs|e]; [|apply on_exception_unfold].
  destruct (llm msgs) as [text|detail]; [|apply on_exception_unfold].
  destruct (parse_reply text) as [result|]; [|apply on_exception_unfold].
  cbv zeta.
  cbn [files temp_names add_rendered add_request add_sends called add_invocation].
  destruct (draw_name ".pdf" (temp_names w) (files w)) as [[path names']|];
    [reflexivity | apply on_exception_unfold].
Qed.

(** *** Small facts used by the statements *)

Lemma truthy_nonempty (s : string) : s <> "" -> Py.truthy s = true.
Proof. destruct s; [contradiction | reflexivity]. Qed.

Lemma both_filled (a b : string) :
  a <> "" -> b <> "" -> negb (Py.truthy a) || negb (Py.truthy b) = false.
Proof. intros Ha Hb. rewrite !truthy_nonempty by assumption. reflexivity. Qed.

Lemma one_missing (a b : string) :
  a = "" \/ b = "" -> negb (Py.truthy a) || negb (Py.truthy b) = true.
Proof. intros [-> | ->]; [reflexivity | destruct (Py.truthy a); reflexivity]. Qed.

Lemma prefix_app (sub s : string) :
  String.prefix sub s = true -> exists after, s = sub ++ after.
Proof.
  revert s. induction sub as [|c sub IH]; intros s H.
  - exists s. reflexivity.
  - destruct s as [|d s]; cbn in H; [discriminate|].
    destruct (ascii_dec c d) as [->|]; [|discriminate].
    destruct (IH s H) as [after ->]. exists after. reflexivity.
Qed.

Lemma occursb_sound (sub s : string) : occursb sub s = true -> occurs_in sub s.
Proof.
  induction s as [|c s IH]; cbn [occursb]; intros H.
  - rewrite orb_false_r in H. apply prefix_app in H as [after ->].
    exists "", after. reflexivity.
  - apply orb_true_iff in H as [H|H].
    + apply prefix_app in H as [after ->]. exists "", after. reflexivity.
    + destruct (IH H) as (b & a & ->). exists (String c b), a. reflexivity.
Qed.

Lemma occurs_in_trans (a b c : string) : occurs_in a b -> occurs_in b c -> occurs_in a c.
Proof.
  intros (b1 & a1 & ->) (b2 & a2 & ->).
  exists (b2 ++ b1), (a1 ++ a2).
  rewrite !string_app_assoc. reflexivity.
Qed.

Lemma age_guidelines_in_table : Forall (fun line => occurs_in line age_table) age_guidelines.
Proof. repeat constructor; apply occursb_sound; vm_compute; reflexivity. Qed.

Lemma draw_name_usable (suffix : string) (w : world) :
  usable_name suffix w ->
  exists path names', draw_name suffix (temp_names w) (files w) = Some (path, names').
Proof.
  intros (random & Hin & Hfree). generalize dependent (files w).
  induction (temp_names w) as [|r names IH]; intros fs Hfree; [destruct Hin|].
  cbn [draw_name]. destruct (fs !! temp_path r suffix) eqn:E; [|eauto].
  destruct Hin as [->|Hin]; [congruence|]. apply IH; assumption.
Qed.

Lemma no_checkbox (es : list element) :
  forallb (fun e => negb (is_checkbox e)) es = true ->
  forall label value, ~ In (Checkbox label value) es.
Proof.
  intros H label value Hin. rewrite forallb_forall in H.
  specialize (H _ Hin). discriminate.
Qed.

(** Whatever a run does after the form, it renders no check box. *)
Lemma main_after_form (s : session) (w : world) :
  exists tail,
    rendered (snd (main s w)) = (rendered w ++ form s ++ tail)%list
    /\ forallb (fun e => negb (is_checkbox e)) tail = true.
Proof.
  rewrite main_cases. cbv zeta.
  destruct (generate_clicked s);
    [|exists []; rewrite app_nil_r; split; reflexivity].
  destruct (negb (Py.truthy (topic_box s)) || negb (Py.truthy (name_box s))).
  { eexists. cbn [snd rendered add_rendered]. rewrite <- app_assoc.
    split; reflexivity. }
  destruct (session_prompt s) as [msgs|e].
  2:{ eexists. cbn [snd rendered add_rendered add_invocation].
      rewrite <- !app_assoc. split; reflexivity. }
  destruct (llm msgs) as [text|detail].
  2:{ eexists. cbn [snd rendered add_rendered add_invocation add_request add_sends called].
      rewrite <- !app_assoc. split; reflexivity. }
  destruct (parse_reply text) as [result|].
  2:{ eexists. cbn [snd rendered add_rendered add_invocation add_request add_sends called].
      rewrite <- !app_assoc. split; reflexivity. }
  unfold shown.
  destruct (draw_name ".pdf" (temp_names w) (files w)) as [[path names']|];
    destruct (String.eqb (genre_choice s) "Motivational"
              || String.eqb (genre_choice s) "Educational");
    eexists;
    cbn [snd rendered add_rendered add_invocation add_request add_sends called set_files];
    rewrite <- !app_assoc; (split; [reflexivity|]); reflexivity.
Qed.

Lemma form_checkbox (s : session) :
  if age_box s >? 18
  then forallb (fun e => negb (is_checkbox e)) (form s) = true
  else In (Checkbox "🧒 Parent-safe content mode" true) (form s).
Proof.
  unfold form. destruct (age_box s >? 18); [reflexivity|].
  cbn. tauto.
Qed.

(** The prompt is the same for any language and any parent-safe
    flag: neither key is a field of a template. *)
Lemma assemble_ignores (user_topic genre : string) (age : Z) (name : string)
    (language language' : string) (parent_safe parent_safe' : bool) :
  assemble user_topic genre language age name parent_safe
  = assemble user_topic genre language' age name parent_safe'.
Proof.
  unfold assemble. apply format_messages_agree.
  rewrite human_pieces_fields. intros k Hk.
  destruct (merged_lookup user_topic genre language age name parent_safe)
    as (Ht & Ha & Hg & Hn & Hf).
  destruct (merged_lookup user_topic genre language' age name parent_safe')
    as (Ht' & Ha' & Hg' & Hn' & Hf').
  cbn [In] in Hk.
  destruct Hk as [<-|[<-|[<-|[<-|[<-|[]]]]]]; congruence.
Qed.

(** Two sessions that agree on the form, the button, the required
    fields, the genre and the prompt give runs that render the same
    page and send the same requests. *)
Lemma main_same_prompt (s1 s2 : session) (w : world) :
  form s1 = form s2 ->
  generate_clicked s1 = generate_clicked s2 ->
  topic_box s1 = topic_box s2 ->
  name_box s1 = name_box s2 ->
  genre_choice s1 = genre_choice s2 ->
  session_prompt s1 = session_prompt s2 ->
  rendered (snd (main s1 w)) = rendered (snd (main s2 w))
  /\ requests (snd (main s1 w)) = requests (snd (main s2 w))
  /\ files (snd (main s1 w)) = files (snd (main s2 w)).
Proof.
  intros Hform Hclick Htopic Hname Hgenre Hprompt.
  rewrite !main_cases. cbv zeta.
  rewrite Hform, Hclick, Htopic, Hname, Hgenre, Hprompt.
  destruct (generate_clicked s2); [|repeat split; reflexivity].
  destruct (negb (Py.truthy (topic_box s2)) || negb (Py.truthy (name_box s2)));
    [repeat split; reflexivity|].
  destruct (session_prompt s2) as [msgs|e]; [|repeat split; reflexivity].
  destruct (llm msgs) as [text|detail]; [|repeat split; reflexivity].
  destruct (parse_reply text) as [result|]; [|repeat split; reflexivity].
  destruct (draw_name ".pdf" (temp_names w) (files w)) as [[path names']|];
    repeat split; reflexivity.
Qed.

(** *** The sample parser and the glyphs *)






(** A printable ASCII text is drawn character by character as itself. *)
Lemma drawn_printable (text : string) :
  printable text = true -> drawn text = map InFont (list_ascii_of_string text).
Proof.
  unfold drawn. induction text as [|c text IH]; intros H; [reflexivity|].
  cbn [printable] in H. apply andb_true_iff in H as [Hc Htext].
  apply andb_true_iff in Hc as [Hlo Hhi].
  cbn [code_points list_ascii_of_string].
  assert (Hlt : (N_of_ascii c <? 128)%N = true).
  { apply N.ltb_lt. apply N.leb_le in Hhi. lia. }
  rewrite Hlt. cbn [map]. rewrite (IH Htext).
  unfold glyph_of. rewrite Hlo, Hhi. cbn [andb].
  rewrite ascii_N_embedding. reflexivity.
Qed.

(** A text of Devanagari or Gujarati letters is drawn as squares. *)
Lemma drawn_squares (text : string) :
  Forall (fun code => devanagari_or_gujarati code = true) (code_points text) ->
  Forall (fun g => g = NotDef) (drawn text).
Proof.
  unfold drawn. induction (code_points text) as [|code codes IH]; intros H.
  - constructor.
  - apply Forall_cons in H as [Hcode Hcodes].
    cbn [map]. constructor; [|exact (IH Hcodes)].
    unfold glyph_of. rewrite Hcode.
    assert (Hhi : (code <=? 126)%N = false).
    { unfold devanagari_or_gujarati in Hcode.
      apply N.leb_gt. apply orb_true_iff in Hcode as [H1|H1];
        apply andb_true_iff in H1 as [H1 _]; apply N.leb_le in H1; lia. }
    rewrite Hhi, andb_false_r. destruct (code =? 10)%N; reflexivity.
Qed.

Example drawn_label :
  drawn (nl ++ "Moral:") = NotDef :: map InFont (list_ascii_of_string "Moral:").
Proof. reflexivity. Qed.

Example code_points_hindi :
  code_points "लो" = [2354%N; 2379%N].
Proof. vm_compute. reflexivity. Qed.

(** ** The claims *)

(** A run that attempts generation: the button is pressed and both
    required fields are filled. *)
Ltac attempt Hclick Htopic Hname :=
  rewrite main_cases; cbv zeta;
  rewrite Hclick, (both_filled _ _ Htopic Hname).

(** Read the page and the logs off a final world. *)
Ltac read_world :=
  cbn [snd fst rendered invocations requests files temp_names sent resend_plan
       add_rendered add_invocation add_request add_sends called set_files];
  rewrite <- ?app_assoc.


(** C2. When the button is pressed while the topic or the name is
    empty, the run adds the warning to the form and nothing else: the
    chain is not invoked and no request is sent. *)
Theorem missing_fields_warning (s : session) (w : world) :
  generate_clicked s = true ->
  topic_box s = "" \/ name_box s = "" ->
  main s w
  = (Ok tt, add_rendered (form s ++ [Warning "Please fill all required fields."]) w)
  /\ invocations (snd (main s w)) = invocations w
  /\ requests (snd (main s w)) = requests w
  /\ files (snd (main s w)) = files w.
Proof.
  intros Hclick Hempty.
  assert (Hrun : main s w
    = (Ok tt, add_rendered (form s ++ [Warning "Please fill all required fields."]) w)).
  { rewrite main_cases. cbv zeta. rewrite Hclick, (one_missing _ _ Hempty).
    unfold add_rendered. cbn [rendered invocations requests files temp_names].
    rewrite <- app_assoc. reflexivity. }
  rewrite Hrun. repeat split; reflexivity.
Qed.

(** C3. Above age 18 the run renders no parent-safe check box and the
    dict handed to the chain carries [parent_safe = False], whatever the
    state of the box in the session; up to age 18 the check box is
    rendered and the dict carries its state. *)
Theorem parent_safe_flag (s : session) (w : world) :
  (exists page,
     rendered (snd (main s w)) = (rendered w ++ page)%list
     /\ (18 < age_box s -> forall label value, ~ In (Checkbox label value) page)
     /\ (age_box s <= 18 -> In (Checkbox "🧒 Parent-safe content mode" true) page))
  /\ (generate_clicked s = true -> topic_box s <> "" -> name_box s <> "" ->
      exists input,
        invocations (snd (main s w)) = (invocations w ++ [input])%list
        /\ (18 < age_box s -> input !! "parent_safe" = Some (Py.Bool false))
        /\ (age_box s <= 18 ->
            input !! "parent_safe" = Some (Py.Bool (parent_safe_box s)))).
Proof.
  split.
  - destruct (main_after_form s w) as (tail & Hpage & Htail).
    exists (form s ++ tail)%list. split; [exact Hpage|].
    pose proof (form_checkbox s) as Hform. split.
    + intros Hage. apply Z.gtb_lt in Hage. rewrite Hage in Hform.
      apply no_checkbox. rewrite forallb_app, Hform, Htail. reflexivity.
    + intros Hage. destruct (age_box s >? 18) eqn:E; [apply Z.gtb_lt in E; lia|].
      apply in_or_app. left. exact Hform.
  - intros Hclick Htopic Hname. exists (session_input s). split.
    + attempt Hclick Htopic Hname.
      destruct (session_prompt s) as [msgs|e]; [|reflexivity].
      destruct (llm msgs) as [text|detail]; [|reflexivity].
      destruct (parse_reply text) as [result|]; [|reflexivity].
      destruct (draw_name ".pdf" (temp_names w) (files w)) as [[path names']|];
        reflexivity.
    + unfold session_input, effective_parent_safe. split; intros Hage.
      * apply Z.gtb_lt in Hage. rewrite Hage. reflexivity.
      * destruct (age_box s >? 18) eqn:E; [apply Z.gtb_lt in E; lia|]. reflexivity.
Qed.

(** C4, as amended.  When the body of the try block raises, the run ends
    normally with the failure message and the exception as the last two
    elements and no download button anywhere on what it rendered.  The
    script does not repeat the generation: the chain is invoked once and
    the model is called at most once; what the client sends more than
    once is the request of that one call, always with the same messages.
    When the exception comes from the chain (formatting, service or
    parser) nothing of a result is on the page; when the chain returned a
    result and the exception comes later, from the PDF step, the Topic
    and Story already written stay on the page. *)
Theorem generation_failure_reported
    (s : session) (w : world) (e : Py.exn) (w_raise : world) :
  generate_clicked s = true ->
  topic_box s <> "" ->
  name_box s <> "" ->
  generate (topic_box s) (genre_choice s) (language_choice s) (age_box s) (name_box s)
    (effective_parent_safe s)
    (add_rendered [Spinner "Creating your story..."] (add_rendered (form s) w))
  = (Raise e, w_raise) ->
  exists partial,
    main s w
    = (Ok tt, add_rendered [Error "Story generation failed."; Exception e] w_raise)
    /\ rendered w_raise
       = (rendered w ++ form s ++ [Spinner "Creating your story..."] ++ partial)%list
    /\ forallb (fun x => negb (is_download x))
         (form s ++ [Spinner "Creating your story..."] ++ partial
          ++ [Error "Story generation failed."; Exception e]) = true
    /\ invocations w_raise = (invocations w ++ [session_input s])%list
    /\ (exists calls sends,
          requests w_raise = (requests w ++ calls)%list
          /\ (length calls <= 1)%nat
          /\ sent w_raise = (sent w ++ sends)%list
          /\ forall m, In m sends -> In m calls)
    /\ match fst (story_chain_invoke (session_input s)
                    (add_rendered [Spinner "Creating your story..."]
                       (add_rendered (form s) w))) with
       | Raise _ => partial = []
       | Ok result => partial = shown (genre_choice s) result
       end.
Proof.
  intros Hclick Htopic Hname Hraise.
  assert (Hmain : main s w
    = (Ok tt, add_rendered [Error "Story generation failed."; Exception e] w_raise)).
  { rewrite main_unfold. cbv zeta.
    rewrite Hclick, (both_filled _ _ Htopic Hname).
    unfold try_except. rewrite Hraise. apply on_exception_unfold. }
  assert (Hform : forall tail,
            forallb (fun x => negb (is_download x)) tail = true ->
            forallb (fun x => negb (is_download x)) (form s ++ tail) = true).
  { intros tail Htail. rewrite forallb_app, Htail, andb_true_r.
    unfold form. destruct (age_box s >? 18); reflexivity. }
  assert (Hone : forall (msgs : list message) n,
            exists calls sends,
              (requests w ++ [msgs])%list = (requests w ++ calls)%list
              /\ (length calls <= 1)%nat
              /\ (sent w ++ repeat msgs n)%list = (sent w ++ sends)%list
              /\ forall m, In m sends -> In m calls).
  { intros msgs n. exists [msgs], (repeat msgs n).
    split; [reflexivity|]. split; [cbn; lia|]. split; [reflexivity|].
    intros m Hm. apply repeat_spec in Hm as ->. left. reflexivity. }
  rewrite generate_unfold in Hraise. fold (session_input s) in Hraise.
  rewrite story_chain_invoke_unfold in *.
  destruct (format_messages prompt (session_input s)) as [msgs|e0].
  2:{ injection Hraise as <- <-. exists []. split; [exact Hmain|].
      read_world. split; [reflexivity|]. split; [apply Hform; reflexivity|].
      split; [reflexivity|]. split; [|reflexivity].
      exists [], []. rewrite !app_nil_r. repeat split; [cbn; lia | intros m []]. }
  destruct (llm msgs) as [text|detail].
  2:{ injection Hraise as <- <-. exists []. split; [exact Hmain|].
      read_world. split; [reflexivity|]. split; [apply Hform; reflexivity|].
      split; [reflexivity|]. split; [apply Hone | reflexivity]. }
  destruct (parse_reply text) as [result|].
  2:{ injection Hraise as <- <-. exists []. split; [exact Hmain|].
      read_world. split; [reflexivity|]. split; [apply Hform; reflexivity|].
      split; [reflexivity|]. split; [apply Hone | reflexivity]. }
  cbv zeta in Hraise.
  destruct (draw_name _ _ _) as [[path names']|]; [discriminate|].
  injection Hraise as <- <-. exists (shown (genre_choice s) result).
  split; [exact Hmain|].
  read_world. split; [reflexivity|]. split.
  { apply Hform. unfold shown.
    destruct (String.eqb (genre_choice s) "Motivational"
              || String.eqb (genre_choice s) "Educational"); reflexivity. }
  split; [reflexivity|]. split; [apply Hone | reflexivity].
Qed.

(** C5. When the chain returns a result, the page shows, after the
    spinner, the Topic heading and text and the Story heading and text;
    then the Moral heading and text exactly when the genre is
    Motivational or Educational, and for any other genre nothing; what
    follows (the download button, or the failure report of the PDF step)
    puts no heading or text on the page. *)
Theorem result_display
    (s : session) (w : world) (msgs : list message) (text : string)
    (result : StoryOutput) :
  generate_clicked s = true ->
  topic_box s <> "" ->
  name_box s <> "" ->
  session_prompt s = Ok msgs ->
  llm msgs = Reply text ->
  parse_reply text = Some result ->
  exists moral_section rest,
    rendered (snd (main s w))
    = (rendered w ++ form s
       ++ [ Spinner "Creating your story...";
            Subheader "📌 Topic"; StWrite (Topic result);
            Subheader "📚 Story"; StWrite (Story result) ]
       ++ moral_section ++ rest)%list
    /\ (genre_choice s = "Motivational" \/ genre_choice s = "Educational" ->
        moral_section = [ Subheader "🌱 Moral"; StWrite (Moral result) ])
    /\ (genre_choice s <> "Motivational" -> genre_choice s <> "Educational" ->
        moral_section = [])
    /\ forallb (fun e => negb (is_story_text e)) rest = true.
Proof.
  intros Hclick Htopic Hname Hprompt Hllm Hparse.
  attempt Hclick Htopic Hname. rewrite Hprompt, Hllm, Hparse.
  exists (if String.eqb (genre_choice s) "Motivational"
             || String.eqb (genre_choice s) "Educational"
          then [ Subheader "🌱 Moral"; StWrite (Moral result) ] else []).
  assert (Hyes : genre_choice s = "Motivational" \/ genre_choice s = "Educational" ->
            String.eqb (genre_choice s) "Motivational"
            || String.eqb (genre_choice s) "Educational" = true).
  { intros [-> | ->]; reflexivity. }
  assert (Hno : genre_choice s <> "Motivational" -> genre_choice s <> "Educational" ->
            String.eqb (genre_choice s) "Motivational"
            || String.eqb (genre_choice s) "Educational" = false).
  { intros H1 H2. apply String.eqb_neq in H1, H2. rewrite H1, H2. reflexivity. }
  destruct (draw_name ".pdf" (temp_names w) (files w)) as [[path names']|];
    eexists;
    (split; [unfold shown; read_world; reflexivity|]);
    (split; [intros H; rewrite (Hyes H); reflexivity|]);
    (split; [intros H1 H2; rewrite (Hno H1 H2); reflexivity|]);
    reflexivity.
Qed.

(** C6, as amended.  Whenever a temporary name is still usable,
    [generate_pdf] returns the path of a file that did not exist before
    and now holds a one-page A4 document.  Its first line is what
    Helvetica-Bold 14 draws for the Topic, then an empty line, then the
    Story in Helvetica 11 with one drawn line per piece between newlines
    (joining the pieces with newlines gives the Story back and no piece
    contains a newline), then the label line -- a square, drawn for the
    newline character the source writes in front, and the letters
    Moral: -- and what Helvetica 11 draws for the Moral.  What a font
    draws for a text is the text itself when it is printable ASCII;
    Devanagari and Gujarati letters are drawn as squares. *)
Theorem generate_pdf_document (result : StoryOutput) (w : world) :
  usable_name ".pdf" w ->
  exists path names' body,
    generate_pdf result w
    = (Ok path,
       set_files
         (<[path :=
              PdfFile
                (Pdf A4
                   [ (TextLine "Helvetica-Bold" 14 (drawn (Topic result))
                      :: TextLine "Helvetica-Bold" 14 []
                      :: map (fun piece => TextLine "Helvetica" 11 (drawn piece)) body
                      ++ [ TextLine "Helvetica" 11
                             (NotDef :: map InFont (list_ascii_of_string "Moral:"));
                           TextLine "Helvetica" 11 (drawn (Moral result)) ])%list ])]>
            (files w))
         names' w)
    /\ String.concat nl body = Story result
    /\ (forall line, In line body -> ~ occurs_in nl line)
    /\ files w !! path = None
    /\ (exists random, In random (temp_names w) /\ path = temp_path random ".pdf")
    /\ (forall text,
          printable text = true -> drawn text = map InFont (list_ascii_of_string text))
    /\ (forall text,
          Forall (fun code => devanagari_or_gujarati code = true) (code_points text) ->
          Forall (fun g => g = NotDef) (drawn text)).
Proof.
  intros Husable.
  destruct (draw_name_usable _ _ Husable) as (path & names' & Hdraw).
  exists path, names', (Py.split "010" (Story result)).
  rewrite generate_pdf_unfold, Hdraw.
  destruct (draw_name_fresh _ _ _ _ _ Hdraw) as (Hfresh & Hname).
  split; [reflexivity|]. split; [apply split_join|].
  split; [intros line; apply split_pieces|].
  split; [assumption|]. split; [assumption|].
  split; [exact drawn_printable | exact drawn_squares].
Qed.

(** C9, as amended.  In every run that ends with the download button --
    the chain returned a result and a temporary name was usable -- the
    document behind the button ends with the label line (a square and
    the letters Moral:) and the line that Helvetica 11 draws for the
    Moral, whatever the genre; a Moral of printable ASCII is drawn as
    itself.  For a genre other than Motivational and Educational the page
    itself has no Moral heading. *)
Theorem pdf_always_has_moral
    (s : session) (w : world) (msgs : list message) (text : string)
    (result : StoryOutput) :
  generate_clicked s = true ->
  topic_box s <> "" ->
  name_box s <> "" ->
  session_prompt s = Ok msgs ->
  llm msgs = Reply text ->
  parse_reply text = Some result ->
  usable_name ".pdf" w ->
  exists above lines,
    rendered (snd (main s w))
    = (rendered w ++ above
       ++ [ DownloadButton "📄 Download as PDF"
              (PdfFile
                 (Pdf A4
                    [ (lines
                       ++ [ TextLine "Helvetica" 11
                              (NotDef :: map InFont (list_ascii_of_string "Moral:"));
                            TextLine "Helvetica" 11 (drawn (Moral result)) ])%list ]))
              "story.pdf" "application/pdf" ])%list
    /\ (printable (Moral result) = true ->
        drawn (Moral result) = map InFont (list_ascii_of_string (Moral result)))
    /\ (genre_choice s <> "Motivational" -> genre_choice s <> "Educational" ->
        ~ In (Subheader "🌱 Moral") above).
Proof.
  intros Hclick Htopic Hname Hprompt Hllm Hparse Husable.
  destruct (draw_name_usable _ _ Husable) as (path & names' & Hdraw).
  attempt Hclick Htopic Hname. rewrite Hprompt, Hllm, Hparse, Hdraw.
  exists (form s ++ [Spinner "Creating your story..."]
          ++ shown (genre_choice s) result)%list,
    (TextLine "Helvetica-Bold" 14 (drawn (Topic result))
     :: TextLine "Helvetica-Bold" 14 []
     :: map (fun piece => TextLine "Helvetica" 11 (drawn piece))
          (Py.split "010" (Story result)))%list.
  split; [read_world; reflexivity|].
  split; [apply drawn_printable|].
  intros H1 H2. apply String.eqb_neq in H1, H2.
  unfold form, shown. rewrite H1, H2.
  destruct (age_box s >? 18); cbn; intuition discriminate.
Qed.

(** C7. The chosen language is put in the dict of the call, but the
    formatted prompt does not depend on it: two sessions that differ
    only in the language get the same prompt, and their runs send the
    same requests and render the same page. *)
Theorem language_not_in_prompt (s : session) (w : world) (language language' : string) :
  session_input (with_language language s) !! "language" = Some (Py.Str language)
  /\ session_prompt (with_language language s) = session_prompt (with_language language' s)
  /\ requests (snd (main (with_language language s) w))
     = requests (snd (main (with_language language' s) w))
  /\ rendered (snd (main (with_language language s) w))
     = rendered (snd (main (with_language language' s) w)).
Proof.
  assert (Hprompt : session_prompt (with_language language s)
                    = session_prompt (with_language language' s)).
  { unfold session_prompt, session_input, effective_parent_safe, with_language.
    cbn [topic_box genre_choice language_choice age_box name_box parent_safe_box].
    exact (assemble_ignores (topic_box s) (genre_choice s) (age_box s) (name_box s)
             language language'
             (if age_box s >? 18 then false else parent_safe_box s)
             (if age_box s >? 18 then false else parent_safe_box s)). }
  split; [reflexivity|]. split; [exact Hprompt|].
  destruct (main_same_prompt (with_language language s) (with_language language' s) w
              eq_refl eq_refl eq_refl eq_refl eq_refl Hprompt)
    as (Hpage & Hreq & _).
  split; assumption.
Qed.

(** C8. Whatever the inputs, formatting the prompt succeeds and the
    human message carries the age table: the heading and the lines for
    ages 3-6, 7-12, 13-17 and 18+.  A run that attempts generation sends
    exactly that prompt; in particular for age 8 the request carries the
    line for ages 7-12. *)
Theorem age_guidance_in_every_prompt (s : session) (w : world) :
  exists human,
    session_prompt s = Ok [Message "system" system_template; Message "human" human]
    /\ occurs_in age_table human
    /\ Forall (fun line => occurs_in line human) age_guidelines
    /\ (generate_clicked s = true -> topic_box s <> "" -> name_box s <> "" ->
        requests (snd (main s w))
        = (requests w ++ [[Message "system" system_template; Message "human" human]])%list
        /\ (age_box s = 8 ->
            occurs_in "- Age 7–12: Simple plot, light adventure, positive moral" human)).
Proof.
  destruct (assemble_ok (topic_box s) (genre_choice s) (language_choice s) (age_box s)
              (name_box s) (effective_parent_safe s)) as (human & Hprompt & Htable).
  change (session_prompt s
          = Ok [Message "system" system_template; Message "human" human]) in Hprompt.
  assert (Hlines : Forall (fun line => occurs_in line human) age_guidelines).
  { eapply Forall_impl; [exact age_guidelines_in_table|].
    intros line Hline. exact (occurs_in_trans _ _ _ Hline Htable). }
  exists human. split; [exact Hprompt|]. split; [exact Htable|]. split; [exact Hlines|].
  intros Hclick Htopic Hname. split.
  - attempt Hclick Htopic Hname. rewrite Hprompt.
    destruct (llm _) as [text|detail]; [|reflexivity].
    destruct (parse_reply text) as [result|]; [|reflexivity].
    destruct (draw_name ".pdf" (temp_names w) (files w)) as [[path names']|];
      reflexivity.
  - intros _. inversion Hlines as [|? ? _ Hrest]. inversion Hrest as [|? ? H712 _].
    exact H712.
Qed.

(** C10. The parent-safe flag is put in the dict of the call, but the
    formatted prompt does not depend on it: the prompt for a dict with
    the flag set equals the prompt for the dict with it cleared, and two
    sessions that differ only in the state of the check box send the
    same requests. *)
Theorem parent_safe_not_in_prompt (s : session) (w : world) (ticked ticked' : bool) :
  (forall parent_safe,
     chain_input (topic_box s) (genre_choice s) (language_choice s) (age_box s)
       (name_box s) parent_safe !! "parent_safe" = Some (Py.Bool parent_safe))
  /\ assemble (topic_box s) (genre_choice s) (language_choice s) (age_box s)
       (name_box s) true
     = assemble (topic_box s) (genre_choice s) (language_choice s) (age_box s)
         (name_box s) false
  /\ session_prompt (with_parent_safe ticked s) = session_prompt (with_parent_safe ticked' s)
  /\ requests (snd (main (with_parent_safe ticked s) w))
     = requests (snd (main (with_parent_safe ticked' s) w)).
Proof.
  assert (Hprompt : session_prompt (with_parent_safe ticked s)
                    = session_prompt (with_parent_safe ticked' s)).
  { unfold session_prompt, session_input, effective_parent_safe, with_parent_safe.
    cbn [topic_box genre_choice language_choice age_box name_box parent_safe_box].
    exact (assemble_ignores (topic_box s) (genre_choice s) (age_box s) (name_box s)
             (language_choice s) (language_choice s)
             (if age_box s >? 18 then false else ticked)
             (if age_box s >? 18 then false else ticked')). }
  split; [intros parent_safe; reflexivity|].
  split; [apply assemble_ignores|]. split; [exact Hprompt|].
  destruct (main_same_prompt (with_parent_safe ticked s) (with_parent_safe ticked' s) w
              eq_refl eq_refl eq_refl eq_refl eq_refl Hprompt)
    as (_ & Hreq & _).
  exact Hreq.
Qed.

(** ** Further properties of the script *)

Lemma form_no_download (s : session) :
  forallb (fun e => negb (is_download e)) (form s) = true.
Proof. unfold form. destruct (age_box s >? 18); reflexivity. Qed.

Lemma shown_no_download (genre : string) (result : StoryOutput) :
  forallb (fun e => negb (is_download e)) (shown genre result) = true.
Proof.
  unfold shown.
  destruct (String.eqb genre "Motivational" || String.eqb genre "Educational");
    reflexivity.
Qed.

Lemma no_download (es : list element) :
  forallb (fun e => negb (is_download e)) es = true ->
  forall label data file_name mime, ~ In (DownloadButton label data file_name mime) es.
Proof.
  intros H label data file_name mime Hin. rewrite forallb_forall in H.
  specialize (H _ Hin). discriminate.
Qed.

Lemma attempted_true (s : session) :
  attempted s = true ->
  generate_clicked s = true
  /\ negb (Py.truthy (topic_box s)) || negb (Py.truthy (name_box s)) = false.
Proof.
  unfold attempted. destruct (generate_clicked s); [|discriminate].
  destruct (Py.truthy (topic_box s)); [|discriminate].
  destruct (Py.truthy (name_box s)); [|discriminate].
  split; reflexivity.
Qed.

Lemma attempted_false (s : session) :
  attempted s = false ->
  generate_clicked s = false
  \/ (generate_clicked s = true
      /\ negb (Py.truthy (topic_box s)) || negb (Py.truthy (name_box s)) = true).
Proof.
  unfold attempted. destruct (generate_clicked s); [|left; reflexivity].
  destruct (Py.truthy (topic_box s)); [|right; split; reflexivity].
  destruct (Py.truthy (name_box s)); [discriminate|right; split; reflexivity].
Qed.

Lemma session_prompt_ok (s : session) : exists msgs, session_prompt s = Ok msgs.
Proof.
  destruct (assemble_ok (topic_box s) (genre_choice s) (language_choice s) (age_box s)
              (name_box s) (effective_parent_safe s)) as (human & Hprompt & _).
  eexists. exact Hprompt.
Qed.

(** X1. In a run that attempts generation the chain is invoked exactly
    once, with the dict of the widget values, and the model is called
    exactly once; the client sends the request of that call once and then
    as often again as it re-sends it, every time with the same messages.
    In every other run the chain is not invoked, the model is not called
    and nothing is sent. *)
Theorem invoked_iff_attempted (s : session) (w : world) :
  exists msgs,
    session_prompt s = Ok msgs
    /\ invocations (snd (main s w))
       = (invocations w ++ (if attempted s then [session_input s] else []))%list
    /\ requests (snd (main s w))
       = (requests w ++ (if attempted s then [msgs] else []))%list
    /\ sent (snd (main s w))
       = (sent w
          ++ (if attempted s then repeat msgs (S (hd 0%nat (resend_plan w))) else []))%list
    /\ session_input s !! "topic" = Some (Py.Str (topic_box s))
    /\ session_input s !! "genre" = Some (Py.Str (genre_choice s))
    /\ session_input s !! "language" = Some (Py.Str (language_choice s))
    /\ session_input s !! "age" = Some (Py.Int (age_box s))
    /\ session_input s !! "name" = Some (Py.Str (name_box s)).
Proof.
  destruct (session_prompt_ok s) as [msgs Hprompt].
  exists msgs. split; [exact Hprompt|].
  assert (Hlogs :
    invocations (snd (main s w))
    = (invocations w ++ (if attempted s then [session_input s] else []))%list
    /\ requests (snd (main s w))
       = (requests w ++ (if attempted s then [msgs] else []))%list
    /\ sent (snd (main s w))
       = (sent w
          ++ (if attempted s then repeat msgs (S (hd 0%nat (resend_plan w))) else []))%list).
  { rewrite main_cases. cbv zeta.
    destruct (attempted s) eqn:Hatt.
    - destruct (attempted_true s Hatt) as [-> ->]. rewrite Hprompt.
      destruct (llm msgs) as [text|detail]; [|repeat split; reflexivity].
      destruct (parse_reply text) as [result|]; [|repeat split; reflexivity].
      destruct (draw_name ".pdf" (temp_names w) (files w)) as [[path names']|];
        repeat split; reflexivity.
    - destruct (attempted_false s Hatt) as [-> | [-> ->]];
        cbn [snd invocations requests sent add_rendered]; rewrite !app_nil_r;
        repeat split; reflexivity. }
  destruct Hlogs as (Hinv & Hreq & Hsent).
  split; [exact Hinv|]. split; [exact Hreq|]. split; [exact Hsent|].
  repeat split; reflexivity.
Qed.

(** X2. No exception leaves the script: whatever the session, the
    service, the parser and the file system do, the run returns. *)
Theorem main_never_raises (s : session) (w : world) : fst (main s w) = Ok tt.
Proof.
  rewrite main_cases. cbv zeta.
  destruct (generate_clicked s); [|reflexivity].
  destruct (negb (Py.truthy (topic_box s)) || negb (Py.truthy (name_box s)));
    [reflexivity|].
  destruct (session_prompt s) as [msgs|e]; [|reflexivity].
  destruct (llm msgs) as [text|detail]; [|reflexivity].
  destruct (parse_reply text) as [result|]; [|reflexivity].
  destruct (draw_name ".pdf" (temp_names w) (files w)) as [[path names']|];
    reflexivity.
Qed.

(** What a run does to the file system: nothing, or one document under
    the name that [draw_name] picks. *)
Lemma main_files (s : session) (w : world) :
  files (snd (main s w)) = files w
  \/ exists path names' doc,
       draw_name ".pdf" (temp_names w) (files w) = Some (path, names')
       /\ files (snd (main s w)) = <[path := PdfFile doc]> (files w).
Proof.
  rewrite main_cases. cbv zeta.
  destruct (generate_clicked s); [|left; reflexivity].
  destruct (negb (Py.truthy (topic_box s)) || negb (Py.truthy (name_box s)));
    [left; reflexivity|].
  destruct (session_prompt s) as [msgs|e]; [|left; reflexivity].
  destruct (llm msgs) as [text|detail]; [|left; reflexivity].
  destruct (parse_reply text) as [result|]; [|left; reflexivity].
  destruct (draw_name ".pdf" (temp_names w) (files w)) as [[path names']|];
    [|left; reflexivity].
  right. eexists path, names', _. split; reflexivity.
Qed.

(** X3. A run never changes or removes a file that exists: every path
    holds after the run what it held before, and the run adds at most one
    file, a document under a path that was free. *)
Theorem files_only_grow (s : session) (w : world) :
  (forall path f, files w !! path = Some f -> files (snd (main s w)) !! path = Some f)
  /\ (files (snd (main s w)) = files w
      \/ exists path doc,
           files w !! path = None
           /\ files (snd (main s w)) = <[path := PdfFile doc]> (files w)).
Proof.
  destruct (main_files s w) as [Hsame | (path & names' & doc & Hdraw & Hfiles)].
  - rewrite Hsame. split; [intros path f H; exact H | left; reflexivity].
  - destruct (draw_name_fresh _ _ _ _ _ Hdraw) as [Hfree _].
    rewrite Hfiles. split.
    + intros p f Hp. rewrite lookup_insert_ne; [exact Hp|]. intros ->. congruence.
    + right. exists path, doc. split; [exact Hfree | reflexivity].
Qed.

(** X4. Whenever a run shows a download button, the button has the label,
    the file name story.pdf and the MIME type application/pdf of the
    source, and its data is what a temporary .pdf file holds at the end of
    the run, under a path that was free before: the document offered is
    the file written, and the run does not delete it. *)
Theorem download_is_saved_file (s : session) (w : world) :
  exists page,
    rendered (snd (main s w)) = (rendered w ++ page)%list
    /\ forall label data file_name mime,
         In (DownloadButton label data file_name mime) page ->
         label = "📄 Download as PDF"
         /\ file_name = "story.pdf"
         /\ mime = "application/pdf"
         /\ exists random,
              In random (temp_names w)
              /\ files w !! temp_path random ".pdf" = None
              /\ files (snd (main s w)) !! temp_path random ".pdf" = Some data.
Proof.
  pose proof (form_no_download s) as Hform.
  rewrite main_cases. cbv zeta.
  assert (Hnone : forall tail,
            forallb (fun e => negb (is_download e)) tail = true ->
            forall label data file_name mime,
              ~ In (DownloadButton label data file_name mime) (form s ++ tail)).
  { intros tail Htail. apply no_download. rewrite forallb_app, Hform, Htail. reflexivity. }
  destruct (generate_clicked s).
  2:{ exists (form s). read_world. split; [reflexivity|].
      intros label data fn mime Hin. exfalso. exact (no_download _ Hform _ _ _ _ Hin). }
  destruct (negb (Py.truthy (topic_box s)) || negb (Py.truthy (name_box s))).
  { eexists (form s ++ _)%list. read_world. split; [reflexivity|].
    intros label data fn mime Hin. exfalso. revert Hin. apply Hnone. reflexivity. }
  destruct (session_prompt s) as [msgs|e].
  2:{ eexists (form s ++ _)%list. read_world. split; [reflexivity|].
      intros label data fn mime Hin. exfalso. revert Hin. apply Hnone. reflexivity. }
  destruct (llm msgs) as [text|detail].
  2:{ eexists (form s ++ _)%list. read_world. split; [reflexivity|].
      intros label data fn mime Hin. exfalso. revert Hin. apply Hnone. reflexivity. }
  destruct (parse_reply text) as [result|].
  2:{ eexists (form s ++ _)%list. read_world. split; [reflexivity|].
      intros label data fn mime Hin. exfalso. revert Hin. apply Hnone. reflexivity. }
  pose proof (shown_no_download (genre_choice s) result) as Hshown.
  destruct (draw_name ".pdf" (temp_names w) (files w)) as [[path names']|] eqn:Hdraw.
  - exists (form s ++ [Spinner "Creating your story..."] ++ shown (genre_choice s) result
            ++ [DownloadButton "📄 Download as PDF"
                  (PdfFile (Pdf A4 [pdf_lines result])) "story.pdf" "application/pdf"])%list.
    read_world. split; [reflexivity|].
    intros label data fn mime Hin. rewrite !in_app_iff in Hin.
    destruct Hin as [Hin | [Hin | [Hin | Hin]]].
    + exfalso. exact (no_download _ Hform _ _ _ _ Hin).
    + destruct Hin as [Heq | []]. discriminate.
    + exfalso. exact (no_download _ Hshown _ _ _ _ Hin).
    + destruct Hin as [Heq | []]. injection Heq as <- <- <- <-.
      repeat split.
      destruct (draw_name_fresh _ _ _ _ _ Hdraw) as (Hfree & random & Hin & ->).
      exists random. split; [exact Hin|]. split; [exact Hfree|].
      apply lookup_insert_eq.
  - exists (form s ++ [Spinner "Creating your story..."] ++ shown (genre_choice s) result
            ++ [Error "Story generation failed.";
                Exception (Py.FileExistsError "No usable temporary file name found")])%list.
    read_world. split; [reflexivity|].
    intros label data fn mime Hin. rewrite !in_app_iff in Hin.
    destruct Hin as [Hin | [Hin | [Hin | Hin]]].
    + exfalso. exact (no_download _ Hform _ _ _ _ Hin).
    + destruct Hin as [Heq | []]. discriminate.
    + exfalso. exact (no_download _ Hshown _ _ _ _ Hin).
    + destruct Hin as [Heq | [Heq | []]]; discriminate.
Qed.

Lemma draw_name_none (suffix : string) (names : list string) (fs : gmap string file) :
  draw_name suffix names fs = None ->
  forall random, In random names -> fs !! temp_path random suffix <> None.
Proof.
  induction names as [|r names IH]; cbn [draw_name]; intros H random Hin; [destruct Hin|].
  destruct (fs !! temp_path r suffix) eqn:E; [|discriminate].
  destruct Hin as [<-|Hin]; [congruence | exact (IH H random Hin)].
Qed.

(** X5. [generate_pdf] returns a path exactly when a temporary name is
    still usable.  Otherwise it raises [FileExistsError] and leaves the
    file system as it was: no empty or half-written file stays behind. *)
Theorem generate_pdf_succeeds_iff (result : StoryOutput) (w : world) :
  ((exists path w', generate_pdf result w = (Ok path, w')) <-> usable_name ".pdf" w)
  /\ (~ usable_name ".pdf" w ->
      exists w',
        generate_pdf result w
        = (Raise (Py.FileExistsError "No usable temporary file name found"), w')
        /\ files w' = files w).
Proof.
  rewrite generate_pdf_unfold.
  destruct (draw_name ".pdf" (temp_names w) (files w)) as [[path names']|] eqn:Hdraw.
  - assert (Husable : usable_name ".pdf" w).
    { destruct (draw_name_fresh _ _ _ _ _ Hdraw) as (Hfree & random & Hin & ->).
      exists random. split; assumption. }
    split; [split; [intros _; exact Husable | intros _; eauto]|].
    intros Hnot. contradiction.
  - assert (Hnot : ~ usable_name ".pdf" w).
    { intros (random & Hin & Hfree). exact (draw_name_none _ _ _ Hdraw random Hin Hfree). }
    split.
    + split; [intros (path & w' & H); discriminate | intros H; contradiction].
    + intros _. eexists. split; reflexivity.
Qed.

(** X6. Two calls of [generate_pdf], one after the other, return different
    paths, and after the second call both documents are on disk: a later
    document never overwrites an earlier one. *)
Theorem generate_pdf_twice
    (first second : StoryOutput) (w w1 w2 : world) (path1 path2 : string) :
  generate_pdf first w = (Ok path1, w1) ->
  generate_pdf second w1 = (Ok path2, w2) ->
  path1 <> path2
  /\ files w2 !! path1 = Some (PdfFile (Pdf A4 [pdf_lines first]))
  /\ files w2 !! path2 = Some (PdfFile (Pdf A4 [pdf_lines second])).
Proof.
  rewrite !generate_pdf_unfold.
  destruct (draw_name ".pdf" (temp_names w) (files w)) as [[p1 names1]|]; [|discriminate].
  intros [= <- <-]. cbn [files temp_names set_files].
  destruct (draw_name ".pdf" names1 _) as [[p2 names2]|] eqn:Hdraw; [|discriminate].
  intros [= <- <-]. cbn [files set_files].
  destruct (draw_name_fresh _ _ _ _ _ Hdraw) as [Hfree _].
  assert (Hne : p1 <> p2).
  { intros ->. rewrite lookup_insert_eq in Hfree. discriminate. }
  split; [exact Hne|]. split.
  - rewrite lookup_insert_ne by (intros Heq; apply Hne; symmetry; exact Heq).
    apply lookup_insert_eq.
  - apply lookup_insert_eq.
Qed.

Lemma length_split (sep : ascii) (s : string) :
  length (Py.split sep s) = S (count_char sep s).
Proof.
  induction s as [|c s IH]; [reflexivity|].
  cbn [Py.split count_char]. pose proof (split_nonempty sep s) as Hnil.
  destruct (Ascii.eqb c sep).
  - cbn [length]. rewrite IH. reflexivity.
  - destruct (Py.split sep s) as [|piece pieces]; [contradiction|].
    cbn [length] in *. rewrite IH. reflexivity.
Qed.

(** X7. The document has one page however long the story is, and on it
    five lines more than the story has newlines: the title, the empty
    line, one line per piece of the story (an empty story still gives one,
    empty, line), the label and the moral.  Nothing is moved to a second
    page. *)
Theorem generate_pdf_line_count (result : StoryOutput) (w : world) :
  usable_name ".pdf" w ->
  exists path w' lines,
    generate_pdf result w = (Ok path, w')
    /\ files w' !! path = Some (PdfFile (Pdf A4 [lines]))
    /\ length lines = (5 + count_char "010" (Story result))%nat.
Proof.
  intros Husable.
  destruct (draw_name_usable _ _ Husable) as (path & names' & Hdraw).
  rewrite generate_pdf_unfold, Hdraw.
  exists path. eexists. exists (pdf_lines result).
  split; [reflexivity|]. split; [apply lookup_insert_eq|].
  unfold pdf_lines. cbn [length]. rewrite length_app, length_map, length_split.
  cbn [length]. lia.
Qed.

(** X8. The prompt, written out.  The system message is the system text
    unchanged; the human message is the template with the topic, the age
    in decimal, the genre, the name and the format instructions put in
    their places exactly as given -- braces and all, nothing is escaped,
    trimmed or read as a further field -- and formatting cannot fail. *)
Theorem prompt_text (user_topic genre language : string) (age : Z) (name : string)
    (parent_safe : bool) :
  assemble user_topic genre language age name parent_safe
  = Ok [ Message "system" system_template;
         Message "human"
           (human_text user_topic (Py.str (Py.Int age)) genre name format_instructions) ].
Proof.
  destruct (merged_lookup user_topic genre language age name parent_safe)
    as (Ht & Ha & Hg & Hn & Hf).
  unfold assemble, format_messages.
  change (prompt_messages prompt)
    with [("system", system_template); ("human", human_template)].
  cbn [format_each]. rewrite format_system.
  unfold Template.format. rewrite parse_human_template.
  unfold human_pieces. cbn [Template.fill]. rewrite Ht, Ha, Hg, Hn, Hf.
  reflexivity.
Qed.

Lemma fill_ok_bound (ps : list Template.piece) (k : gmap string Py.value) (text : string) :
  Template.fill ps k = Ok text ->
  forall name, In name (Template.fields ps) -> is_Some (k !! name).
Proof.
  revert text. induction ps as [|[lit|field] ps IH]; intros text; cbn.
  - intros _ name [].
  - destruct (Template.fill ps k) as [tail|e]; [|discriminate].
    intros _. exact (IH tail eq_refl).
  - destruct (k !! field) as [v|] eqn:E; [|discriminate].
    destruct (Template.fill ps k) as [tail|e]; [|discriminate].
    intros _ name [<-|Hin]; [rewrite E; eauto | exact (IH tail eq_refl name Hin)].
Qed.

Lemma fill_raise_unbound (ps : list Template.piece) (k : gmap string Py.value) (e : Py.exn) :
  Template.fill ps k = Raise e ->
  exists key, In key (Template.fields ps) /\ k !! key = None /\ e = Py.KeyError key.
Proof.
  induction ps as [|[lit|field] ps IH]; cbn.
  - discriminate.
  - destruct (Template.fill ps k) as [tail|e0]; [discriminate|].
    intros [= <-]. exact (IH eq_refl).
  - destruct (k !! field) as [v|] eqn:E.
    + destruct (Template.fill ps k) as [tail|e0]; [discriminate|].
      intros [= <-]. destruct (IH eq_refl) as (key & Hin & Hnone & ->).
      exists key. split; [right; exact Hin | split; [exact Hnone | reflexivity]].
    + intros [= <-]. exists field. split; [left; reflexivity | split; [exact E | reflexivity]].
Qed.

Lemma format_messages_human (k : gmap string Py.value) :
  format_messages prompt k =
    match Template.fill human_pieces (k ∪ partial_variables prompt) with
    | Ok human => Ok [Message "system" system_template; Message "human" human]
    | Raise e => Raise e
    end.
Proof.
  unfold format_messages.
  change (prompt_messages prompt)
    with [("system", system_template); ("human", human_template)].
  cbn [format_each]. rewrite format_system.
  unfold Template.format. rewrite parse_human_template.
  destruct (Template.fill human_pieces _); reflexivity.
Qed.

(** X9. The prompt needs the keys topic, age, genre and name and no
    other: formatting succeeds exactly when the dict binds these four, and
    when it fails the exception is a [KeyError] for one of the four that
    the dict does not bind. *)
Theorem prompt_needs_four_variables (k : gmap string Py.value) :
  ((exists msgs, format_messages prompt k = Ok msgs)
   <-> Forall (fun key => is_Some (k !! key)) ["topic"; "age"; "genre"; "name"])
  /\ (forall e,
        format_messages prompt k = Raise e ->
        exists key,
          e = Py.KeyError key
          /\ In key ["topic"; "age"; "genre"; "name"]
          /\ k !! key = None).
Proof.
  clear llm parse_reply. rewrite format_messages_human.
  assert (Hinstr : is_Some ((k ∪ partial_variables prompt) !! "format_instructions")).
  { apply lookup_union_is_Some. right. eexists. reflexivity. }
  assert (Hother : forall key, key <> "format_instructions" ->
            (k ∪ partial_variables prompt) !! key = k !! key).
  { intros key Hne. apply lookup_union_l.
    apply lookup_singleton_ne. congruence. }
  split; [split|].
  - intros [msgs Hok].
    destruct (Template.fill human_pieces _) as [human|e] eqn:Hfill; [|discriminate].
    pose proof (fill_ok_bound _ _ _ Hfill) as Hbound.
    rewrite human_pieces_fields in Hbound.
    repeat constructor;
      (rewrite <- Hother by discriminate; apply Hbound; cbn; tauto).
  - intros Hall.
    destruct (fill_total human_pieces (k ∪ partial_variables prompt)) as [human ->];
      [|eauto].
    rewrite human_pieces_fields. intros key Hkey.
    rewrite !Forall_cons in Hall. destruct Hall as (Ht & Ha & Hg & Hn & _).
    cbn [In] in Hkey.
    destruct Hkey as [<-|[<-|[<-|[<-|[<-|[]]]]]];
      try exact Hinstr; rewrite Hother by discriminate; assumption.
  - intros e He.
    destruct (Template.fill human_pieces _) as [human|e0] eqn:Hfill; [discriminate|].
    injection He as <-.
    destruct (fill_raise_unbound _ _ _ Hfill) as (key & Hin & Hnone & ->).
    rewrite human_pieces_fields in Hin. cbn [In] in Hin.
    destruct Hin as [<-|[<-|[<-|[<-|[<-|[]]]]]];
      try (rewrite Hnone in Hinstr; destruct Hinstr; discriminate);
      (eexists; split; [reflexivity|]; split; [cbn; tauto|];
       rewrite <- Hother by discriminate; exact Hnone).
Qed.

(** X10. When the call of the service raises, the model has been called
    once, and the client has sent the request of that call once and as
    often again as it re-sends it; the run shows the failure message and
    the exception with the detail of the service after the spinner, shows
    nothing of a story and no download button, and touches neither the
    file system nor the supply of temporary names. *)
Theorem service_failure_reported
    (s : session) (w : world) (msgs : list message) (detail : string) :
  generate_clicked s = true ->
  topic_box s <> "" ->
  name_box s <> "" ->
  session_prompt s = Ok msgs ->
  llm msgs = Failure detail ->
  exists w',
    main s w = (Ok tt, w')
    /\ rendered w'
       = (rendered w ++ form s
          ++ [ Spinner "Creating your story...";
               Error "Story generation failed.";
               Exception (Py.APIError detail) ])%list
    /\ requests w' = (requests w ++ [msgs])%list
    /\ sent w' = (sent w ++ repeat msgs (S (hd 0%nat (resend_plan w))))%list
    /\ files w' = files w
    /\ temp_names w' = temp_names w.
Proof.
  intros Hclick Htopic Hname Hprompt Hllm.
  attempt Hclick Htopic Hname. rewrite Hprompt, Hllm.
  eexists. split; [reflexivity|].
  read_world. repeat split; reflexivity.
Qed.

(** X11. When the service has replied and the parser does not accept the
    reply, the run shows the failure message and the parser's exception
    after the spinner, shows nothing of a story and no download button,
    calls the model no second time and touches neither the file system
    nor the supply of temporary names. *)
Theorem parser_rejection_reported
    (s : session) (w : world) (msgs : list message) (text : string) :
  generate_clicked s = true ->
  topic_box s <> "" ->
  name_box s <> "" ->
  session_prompt s = Ok msgs ->
  llm msgs = Reply text ->
  parse_reply text = None ->
  exists w',
    main s w = (Ok tt, w')
    /\ rendered w'
       = (rendered w ++ form s
          ++ [ Spinner "Creating your story...";
               Error "Story generation failed.";
               Exception Py.OutputParserException ])%list
    /\ requests w' = (requests w ++ [msgs])%list
    /\ files w' = files w
    /\ temp_names w' = temp_names w.
Proof.
  intros Hclick Htopic Hname Hprompt Hllm Hparse.
  attempt Hclick Htopic Hname. rewrite Hprompt, Hllm, Hparse.
  eexists. split; [reflexivity|].
  read_world. repeat split; reflexivity.
Qed.

End App.

(** ** The claims at concrete inputs *)

(** The scenario of the spec, run to the end: topic "a brave fox", age 8,
    genre Adventure, name Mia, a conforming reply.  The page shows Topic
    and Story, no Moral section, and the download button. *)
Example scenario_page :
  rendered
    (snd (main (Sample.always Sample.conforming) Sample.decode Sample.instructions
            Sample.scenario Sample.fresh_world))
  = [ PageConfig "AI Story Generator" "centered";
      Title "📖 AI Story Generator";
      TextInput "Enter a topic, theme, or idea for the story";
      Selectbox "Select a genre" genres;
      Selectbox "Select story language" languages;
      NumberInput "Reader's age" 3 100 1;
      TextInput "Main character's name";
      Checkbox "🧒 Parent-safe content mode" true;
      Button "✨ Generate Story";
      Spinner "Creating your story...";
      Subheader "📌 Topic"; StWrite "The Brave Fox";
      Subheader "📚 Story"; StWrite (Story Sample.fox);
      DownloadButton "📄 Download as PDF"
        (PdfFile
           (Pdf A4
              [[ TextLine "Helvetica-Bold" 14 (drawn "The Brave Fox");
                 TextLine "Helvetica-Bold" 14 [];
                 TextLine "Helvetica" 11 (drawn "Mia met a fox.");
                 TextLine "Helvetica" 11 (drawn "They became friends.");
                 TextLine "Helvetica" 11
                   (NotDef :: map InFont (list_ascii_of_string "Moral:"));
                 TextLine "Helvetica" 11 (drawn "Courage grows when shared.") ]]))
        "story.pdf" "application/pdf" ].
Proof. vm_compute. reflexivity. Qed.



(** C2 at a session whose name field is empty. *)
Lemma missing_fields_warning_witness :
  main (Sample.always Sample.conforming) Sample.decode Sample.instructions
    Sample.nameless Sample.fresh_world
  = (Ok tt,
     add_rendered (form Sample.nameless ++ [Warning "Please fill all required fields."])
       Sample.fresh_world)
  /\ requests
       (snd (main (Sample.always Sample.conforming) Sample.decode Sample.instructions
               Sample.nameless Sample.fresh_world)) = [].
Proof.
  destruct (missing_fields_warning (Sample.always Sample.conforming) Sample.decode
              Sample.instructions Sample.nameless Sample.fresh_world)
    as (Hrun & _ & Hreq & _).
  - reflexivity.
  - right. reflexivity.
  - split; [exact Hrun | exact Hreq].
Defined.

(** C3 at an adult session with the box ticked in the session state:
    no check box on the page, and the flag of the call is [False]. *)
Lemma parent_safe_flag_witness :
  (exists page,
     rendered (snd (main (Sample.always Sample.conforming) Sample.decode
                      Sample.instructions Sample.adult Sample.fresh_world)) = page
     /\ forall label value, ~ In (Checkbox label value) page)
  /\ exists input,
       invocations (snd (main (Sample.always Sample.conforming) Sample.decode
                           Sample.instructions Sample.adult Sample.fresh_world)) = [input]
       /\ input !! "parent_safe" = Some (Py.Bool false).
Proof.
  destruct (parent_safe_flag (Sample.always Sample.conforming) Sample.decode
              Sample.instructions Sample.adult Sample.fresh_world)
    as ((page & Hpage & Habove & _) & Hcall).
  split.
  - exists page. split; [exact Hpage|]. apply Habove. reflexivity.
  - destruct Hcall as (input & Hinv & Hflag & _);
      [reflexivity | discriminate | discriminate |].
    exists input. split; [exact Hinv|]. apply Hflag. reflexivity.
Defined.

(** C4 as stated fails, in two ways.  First: the service replies, the
    parser accepts, the Topic and the Story are written to the page --
    and then the PDF step raises because no temporary name is usable; the
    handler reports the exception, but the part of the result already
    shown stays.  Second: with the service down and a client that
    re-sends a failing request twice, three requests go out before the
    exception reaches the handler. *)
Lemma generation_failure_partial_result :
  (fst (generate (Sample.always Sample.conforming) Sample.decode Sample.instructions
          "a brave fox" "Adventure" "English" 8 "Mia" true
          (add_rendered [Spinner "Creating your story..."]
             (add_rendered (form Sample.scenario) Sample.no_names_world)))
   = Raise (Py.FileExistsError "No usable temporary file name found")
   /\ rendered
        (snd (main (Sample.always Sample.conforming) Sample.decode Sample.instructions
                Sample.scenario Sample.no_names_world))
      = (form Sample.scenario
         ++ [ Spinner "Creating your story...";
              Subheader "📌 Topic"; StWrite "The Brave Fox";
              Subheader "📚 Story"; StWrite (Story Sample.fox);
              Error "Story generation failed.";
              Exception (Py.FileExistsError "No usable temporary file name found") ])%list)
  /\ (fst (generate Sample.down Sample.decode Sample.instructions
             "a brave fox" "Adventure" "English" 8 "Mia" true
             (add_rendered [Spinner "Creating your story..."]
                (add_rendered (form Sample.scenario) Sample.retrying_world)))
      = Raise (Py.APIError "Connection error.")
      /\ length
           (sent (snd (main Sample.down Sample.decode Sample.instructions
                         Sample.scenario Sample.retrying_world))) = 3%nat).
Proof. repeat split; vm_compute; reflexivity. Qed.

(** The amended C4 at a run whose service call fails. *)
Lemma generation_failure_reported_witness :
  exists w_raise,
    main Sample.down Sample.decode Sample.instructions Sample.scenario Sample.fresh_world
    = (Ok tt,
       add_rendered
         [Error "Story generation failed."; Exception (Py.APIError "Connection error.")]
         w_raise)
    /\ rendered w_raise = (form Sample.scenario ++ [Spinner "Creating your story..."])%list
    /\ length (invocations w_raise) = 1%nat
    /\ length (requests w_raise) = 1%nat.
Proof.
  pose (w1 := add_rendered [Spinner "Creating your story..."]
                (add_rendered (form Sample.scenario) Sample.fresh_world)).
  pose (w_raise := snd (generate Sample.down Sample.decode Sample.instructions
                          "a brave fox" "Adventure" "English" 8 "Mia" true w1)).
  destruct (generation_failure_reported Sample.down Sample.decode Sample.instructions
              Sample.scenario Sample.fresh_world (Py.APIError "Connection error.") w_raise)
    as (partial & Hmain & Hpage & _ & Hinv & _ & Hpartial).
  - reflexivity.
  - discriminate.
  - discriminate.
  - vm_compute. reflexivity.
  - exists w_raise. split; [exact Hmain|]. split.
    + rewrite Hpage.
      assert (Hnone : partial = []) by exact Hpartial.
      rewrite Hnone. reflexivity.
    + split; [rewrite Hinv; reflexivity | vm_compute; reflexivity].
Defined.

(** C5 at the scenario of the spec: genre Adventure, a conforming reply;
    the page shows Topic and Story and no Moral section. *)
Lemma result_display_witness :
  exists rest,
    rendered
      (snd (main (Sample.always Sample.conforming) Sample.decode Sample.instructions
              Sample.scenario Sample.fresh_world))
    = (form Sample.scenario
       ++ [ Spinner "Creating your story...";
            Subheader "📌 Topic"; StWrite "The Brave Fox";
            Subheader "📚 Story"; StWrite (Story Sample.fox) ]
       ++ rest)%list
    /\ forallb (fun e => negb (is_story_text e)) rest = true.
Proof.
  pose (msgs := match session_prompt Sample.instructions Sample.scenario with
                | Ok m => m
                | Raise _ => []
                end).
  destruct (result_display (Sample.always Sample.conforming) Sample.decode
              Sample.instructions Sample.scenario Sample.fresh_world msgs
              Sample.conforming Sample.fox)
    as (moral_section & rest & Hpage & _ & Hnone & Hrest).
  - reflexivity.
  - discriminate.
  - discriminate.
  - vm_compute. reflexivity.
  - reflexivity.
  - reflexivity.
  - exists rest. split; [|exact Hrest].
    rewrite Hpage, Hnone by discriminate. reflexivity.
Defined.

(** C6 as stated fails: with a Hindi title the first line of the
    document is a row of squares and a blank, not the title; and on every
    input the label line begins with a square. *)
Lemma hindi_title_drawn_as_squares :
  exists path w' rest,
    generate_pdf Sample.hindi_fox Sample.fresh_world = (Ok path, w')
    /\ files w' !! path
       = Some
           (PdfFile
              (Pdf A4
                 [ TextLine "Helvetica-Bold" 14
                     (repeat NotDef 6 ++ [InFont " "] ++ repeat NotDef 6)%list
                   :: rest ]))
    /\ In (TextLine "Helvetica" 11 (NotDef :: map InFont (list_ascii_of_string "Moral:")))
         rest.
Proof.
  exists "/tmp/tmpk3x9.pdf", (snd (generate_pdf Sample.hindi_fox Sample.fresh_world)).
  eexists. split; [vm_compute; reflexivity|]. split.
  - vm_compute. reflexivity.
  - vm_compute. tauto.
Qed.

(** The amended C6 at the sample story in a world with one unused
    name. *)
Lemma generate_pdf_document_witness :
  usable_name ".pdf" Sample.fresh_world
  /\ exists path names' body,
       fst (generate_pdf Sample.fox Sample.fresh_world) = Ok path
       /\ files (snd (generate_pdf Sample.fox Sample.fresh_world)) !! path
          = Some
              (PdfFile
                 (Pdf A4
                    [ (TextLine "Helvetica-Bold" 14
                         (map InFont (list_ascii_of_string "The Brave Fox"))
                       :: TextLine "Helvetica-Bold" 14 []
                       :: map (fun piece => TextLine "Helvetica" 11 (drawn piece)) body
                       ++ [ TextLine "Helvetica" 11
                              (NotDef :: map InFont (list_ascii_of_string "Moral:"));
                            TextLine "Helvetica" 11
                              (map InFont
                                 (list_ascii_of_string "Courage grows when shared.")) ])%list ]))
       /\ temp_names (snd (generate_pdf Sample.fox Sample.fresh_world)) = names'
       /\ String.concat nl body = Story Sample.fox
       /\ files Sample.fresh_world !! path = None.
Proof.
  assert (Husable : usable_name ".pdf" Sample.fresh_world).
  { exists "k3x9". split; [left; reflexivity | reflexivity]. }
  split; [exact Husable|].
  destruct (generate_pdf_document Sample.fox Sample.fresh_world Husable)
    as (path & names' & body & Hrun & Hjoin & _ & Hfresh & _ & Hprintable & _).
  exists path, names', body. rewrite Hrun.
  split; [reflexivity|]. split.
  { cbn [snd files set_files]. rewrite lookup_insert_eq.
    rewrite <- (Hprintable "The Brave Fox" eq_refl).
    rewrite <- (Hprintable "Courage grows when shared." eq_refl). reflexivity. }
  split; [reflexivity|]. split; [exact Hjoin | exact Hfresh].
Defined.

(** C8 at the scenario of the spec: age 8, and the request carries the
    line for ages 7-12. *)
Lemma age_guidance_in_every_prompt_witness :
  exists human,
    requests
      (snd (main (Sample.always Sample.conforming) Sample.decode Sample.instructions
              Sample.scenario Sample.fresh_world))
    = [[Message "system" system_template; Message "human" human]]
    /\ occurs_in "- Age 7–12: Simple plot, light adventure, positive moral" human.
Proof.
  destruct (age_guidance_in_every_prompt (Sample.always Sample.conforming) Sample.decode
              Sample.instructions Sample.scenario Sample.fresh_world)
    as (human & _ & _ & _ & Hrun).
  destruct Hrun as (Hreq & Hline); [reflexivity | discriminate | discriminate |].
  exists human. split; [exact Hreq|]. apply Hline. reflexivity.
Defined.

(** C9 as stated fails: when the result has a Hindi moral, the last line
    of the document behind the button is squares and blanks; the text of
    the moral is not in the document. *)
Lemma hindi_moral_drawn_as_squares :
  exists above lines last,
    rendered
      (snd (main (Sample.always Sample.conforming_hindi) Sample.decode_hindi
              Sample.instructions Sample.scenario Sample.fresh_world))
    = (above
       ++ [ DownloadButton "📄 Download as PDF"
              (PdfFile (Pdf A4 [ (lines ++ [TextLine "Helvetica" 11 last])%list ]))
              "story.pdf" "application/pdf" ])%list
    /\ last = drawn (Moral Sample.hindi_fox)
    /\ Forall (fun g => g = NotDef \/ g = InFont " ") last
    /\ last <> [].
Proof.
  exists (removelast
            (rendered
               (snd (main (Sample.always Sample.conforming_hindi) Sample.decode_hindi
                       Sample.instructions Sample.scenario Sample.fresh_world)))),
         (removelast (pdf_lines Sample.hindi_fox)),
         (drawn (Moral Sample.hindi_fox)).
  split; [vm_compute; reflexivity|].
  split; [reflexivity|]. split.
  - vm_compute. repeat (constructor; [first [left; reflexivity | right; reflexivity]|]).
    constructor.
  - discriminate.
Qed.

(** The amended C9 at the scenario of the spec: the genre is Adventure,
    the page has no Moral heading, and the document behind the button
    ends with the label line and the moral. *)
Lemma pdf_always_has_moral_witness :
  exists above lines,
    rendered
      (snd (main (Sample.always Sample.conforming) Sample.decode Sample.instructions
              Sample.scenario Sample.fresh_world))
    = (above
       ++ [ DownloadButton "📄 Download as PDF"
              (PdfFile
                 (Pdf A4
                    [ (lines
                       ++ [ TextLine "Helvetica" 11
                              (NotDef :: map InFont (list_ascii_of_string "Moral:"));
                            TextLine "Helvetica" 11
                              (map InFont
                                 (list_ascii_of_string "Courage grows when shared.")) ])%list ]))
              "story.pdf" "application/pdf" ])%list
    /\ ~ In (Subheader "🌱 Moral") above.
Proof.
  pose (msgs := match session_prompt Sample.instructions Sample.scenario with
                | Ok m => m
                | Raise _ => []
                end).
  destruct (pdf_always_has_moral (Sample.always Sample.conforming) Sample.decode
              Sample.instructions Sample.scenario Sample.fresh_world msgs
              Sample.conforming Sample.fox)
    as (above & lines & Hpage & Hprintable & Hhidden).
  - reflexivity.
  - discriminate.
  - discriminate.
  - vm_compute. reflexivity.
  - reflexivity.
  - reflexivity.
  - exists "k3x9". split; [left; reflexivity | reflexivity].
  - exists above, lines. split; [|apply Hhidden; discriminate].
    rewrite Hpage. rewrite (Hprintable eq_refl). reflexivity.
Defined.

(** ** The further properties at concrete inputs *)

(** X3 at a run that writes a document into a file system that already
    holds a file: the file is still there, unchanged. *)
Lemma files_only_grow_witness :
  files
    (snd (main (Sample.always Sample.conforming) Sample.decode Sample.instructions
            Sample.scenario Sample.stocked_world)) !! "/tmp/notes.txt"
  = Some EmptyFile.
Proof.
  apply (proj1 (files_only_grow (Sample.always Sample.conforming) Sample.decode
                  Sample.instructions Sample.scenario Sample.stocked_world)).
  vm_compute. reflexivity.
Defined.

(** X4 at the scenario of the spec: the button's document is on disk. *)
Lemma download_is_saved_file_witness :
  exists random,
    In random (temp_names Sample.fresh_world)
    /\ files
         (snd (main (Sample.always Sample.conforming) Sample.decode Sample.instructions
                 Sample.scenario Sample.fresh_world)) !! temp_path random ".pdf"
       = Some (PdfFile (Pdf A4 [pdf_lines Sample.fox])).
Proof.
  destruct (download_is_saved_file (Sample.always Sample.conforming) Sample.decode
              Sample.instructions Sample.scenario Sample.fresh_world)
    as (page & Hpage & Hbutton).
  change (rendered Sample.fresh_world) with (@nil element) in Hpage.
  cbn [app] in Hpage. subst page.
  destruct (Hbutton "📄 Download as PDF" (PdfFile (Pdf A4 [pdf_lines Sample.fox]))
              "story.pdf" "application/pdf")
    as (_ & _ & _ & random & Hin & _ & Hfile).
  - vm_compute. repeat (first [left; reflexivity | right]).
  - exists random. split; [exact Hin | exact Hfile].
Defined.

(** X5 in a world where no temporary name is left. *)
Lemma generate_pdf_succeeds_iff_witness :
  exists w',
    generate_pdf Sample.fox Sample.no_names_world
    = (Raise (Py.FileExistsError "No usable temporary file name found"), w')
    /\ files w' = files Sample.no_names_world.
Proof.
  apply (proj2 (generate_pdf_succeeds_iff Sample.fox Sample.no_names_world)).
  intros (random & Hin & _). destruct Hin.
Defined.

(** X6 with two stories and two names to draw. *)
Lemma generate_pdf_twice_witness :
  "/tmp/tmpk3x9.pdf" <> "/tmp/tmpp7q2.pdf"
  /\ files (snd (generate_pdf Sample.owl (snd (generate_pdf Sample.fox Sample.two_names_world))))
       !! "/tmp/tmpk3x9.pdf"
     = Some (PdfFile (Pdf A4 [pdf_lines Sample.fox]))
  /\ files (snd (generate_pdf Sample.owl (snd (generate_pdf Sample.fox Sample.two_names_world))))
       !! "/tmp/tmpp7q2.pdf"
     = Some (PdfFile (Pdf A4 [pdf_lines Sample.owl])).
Proof.
  apply (generate_pdf_twice Sample.fox Sample.owl Sample.two_names_world
           (snd (generate_pdf Sample.fox Sample.two_names_world))).
  - vm_compute. reflexivity.
  - vm_compute. reflexivity.
Defined.

(** X7 at the sample story, which has one newline: six lines. *)
Lemma generate_pdf_line_count_witness :
  exists path w' lines,
    generate_pdf Sample.fox Sample.fresh_world = (Ok path, w')
    /\ files w' !! path = Some (PdfFile (Pdf A4 [lines]))
    /\ length lines = 6%nat.
Proof.
  destruct (generate_pdf_line_count Sample.fox Sample.fresh_world)
    as (path & w' & lines & Hrun & Hfile & Hlen).
  - exists "k3x9". split; [left; reflexivity | reflexivity].
  - exists path, w', lines. split; [exact Hrun|]. split; [exact Hfile | exact Hlen].
Defined.

(** X9 at a dict without the name. *)
Lemma prompt_needs_four_variables_witness :
  exists key,
    format_messages (prompt Sample.instructions) Sample.nameless_input
    = Raise (Py.KeyError key)
    /\ In key ["topic"; "age"; "genre"; "name"]
    /\ Sample.nameless_input !! key = None.
Proof.
  destruct (proj2 (prompt_needs_four_variables Sample.instructions Sample.nameless_input)
              (Py.KeyError "name"))
    as (key & Hkey & Hin & Hnone).
  - vm_compute. reflexivity.
  - exists key. rewrite <- Hkey. split; [vm_compute; reflexivity|].
    split; [exact Hin | exact Hnone].
Defined.

(** X10 at the scenario of the spec with the service down and a client
    that re-sends twice: one call, three requests. *)
Lemma service_failure_reported_witness :
  exists w',
    main Sample.down Sample.decode Sample.instructions Sample.scenario
      Sample.retrying_world
    = (Ok tt, w')
    /\ rendered w'
       = (form Sample.scenario
          ++ [ Spinner "Creating your story...";
               Error "Story generation failed.";
               Exception (Py.APIError "Connection error.") ])%list
    /\ length (requests w') = 1%nat
    /\ length (sent w') = 3%nat
    /\ files w' = files Sample.retrying_world.
Proof.
  pose (msgs := match session_prompt Sample.instructions Sample.scenario with
                | Ok m => m
                | Raise _ => []
                end).
  destruct (service_failure_reported Sample.down Sample.decode Sample.instructions
              Sample.scenario Sample.retrying_world msgs "Connection error.")
    as (w' & Hmain & Hpage & Hreq & Hsent & Hfiles & _).
  - reflexivity.
  - discriminate.
  - discriminate.
  - vm_compute. reflexivity.
  - reflexivity.
  - exists w'. split; [exact Hmain|]. split; [exact Hpage|].
    split; [rewrite Hreq; reflexivity|].
    split; [rewrite Hsent; reflexivity | exact Hfiles].
Defined.

(** X11 at the scenario of the spec with the prose in front of the
    object. *)
Lemma parser_rejection_reported_witness :
  exists w',
    main (Sample.always Sample.prose_then_owl) Sample.lenient Sample.instructions
      Sample.scenario Sample.fresh_world
    = (Ok tt, w')
    /\ rendered w'
       = (form Sample.scenario
          ++ [ Spinner "Creating your story...";
               Error "Story generation failed.";
               Exception Py.OutputParserException ])%list
    /\ files w' = files Sample.fresh_world.
Proof.
  pose (msgs := match session_prompt Sample.instructions Sample.scenario with
                | Ok m => m
                | Raise _ => []
                end).
  destruct (parser_rejection_reported (Sample.always Sample.prose_then_owl) Sample.lenient
              Sample.instructions Sample.scenario Sample.fresh_world msgs
              Sample.prose_then_owl)
    as (w' & Hmain & Hpage & _ & Hfiles & _).
  - reflexivity.
  - discriminate.
  - discriminate.
  - vm_compute. reflexivity.
  - reflexivity.
  - reflexivity.
  - exists w'. split; [exact Hmain|]. split; [exact Hpage | exact Hfiles].
Defined.
